(** * AegisAI: governance scoring, drift severity, risk buckets and
      LLM response quality

    A shallow embedding of the parts of the AegisAI backend that carry the
    governance policy:

    - [model/governance/trust_engine.py]   (module [TrustEngine])
    - [model/monitoring/drift_detector.py] (module [DriftDetector])
    - [model/ml_model.py], with the validators of [CustomerData] from
      [model/schemas.py]                   (module [CreditRiskModel])
    - [model/llm/openrouter_service.py]    (module [OpenRouterLLMService])

    Modelling conventions.

    - Python numbers ([int] and [float]) are exact rationals [Q]; a decimal
      literal of the source denotes its decimal value.  Results are compared
      with [==] ([Qeq]).  The floats that come from numpy, scipy or a
      request body are [pyfloat]: a number, an infinity or NaN.
    - A MongoDB collection is the list of its documents in insertion order,
      or a handle on which every operation raises ([Down]).
    - [datetime.now()] is an argument [now], an integer number of
      milliseconds; one call reads one instant.
    - Python exceptions are values of [exn]; a function that may raise
      returns [exn + A], and [try]/[except] is a [match] on that sum. *)

From Stdlib Require Import ZArith QArith Qround Qminmax Lqa String Ascii List Bool Lia.
From stdpp Require Import gmap strings list fin_maps.

Local Open Scope Z_scope.
Local Open Scope Q_scope.

(** ** Python-level helpers *)

Module Py.

Inductive exn : Type :=
| IndexError (msg : string)
| KeyError (key : string)
| AttributeError (msg : string)
| PyMongoError (msg : string).

(** [str(e)] *)
Definition str (e : exn) : string :=
  match e with
  | IndexError msg => msg
  | KeyError key => String "'" (key +:+ "'")
  | AttributeError msg => msg
  | PyMongoError msg => msg
  end.

(** [x < y] *)
Definition ltb (x y : Q) : bool := negb (Qle_bool y x).
(** [x <= y] *)
Definition leb (x y : Q) : bool := Qle_bool x y.
(** [x > y] *)
Definition gtb (x y : Q) : bool := ltb y x.
(** [x >= y] *)
Definition geb (x y : Q) : bool := leb y x.

(** [max(a, b)]: the first argument stays unless the second is greater. *)
Definition max (a b : Q) : Q := if gtb b a then b else a.
(** [min(a, b)]: the first argument stays unless the second is smaller. *)
Definition min (a b : Q) : Q := if ltb b a then b else a.

(** Nearest integer, ties to the even one. *)
Definition round_half_even (q : Q) : Z :=
  let n := Qnum q in
  let d := Zpos (Qden q) in
  let fl := (n / d)%Z in
  let r2 := (2 * (n mod d))%Z in
  if (r2 <? d)%Z then fl
  else if (d <? r2)%Z then (fl + 1)%Z
  else if Z.even fl then fl else (fl + 1)%Z.

(** [round(q, ndigits)] *)
Definition round (q : Q) (ndigits : nat) : Q :=
  let p := inject_Z (10 ^ Z.of_nat ndigits) in
  inject_Z (round_half_even (q * p)) / p.

(** [sep.join(l)] *)
Fixpoint join (sep : string) (l : list string) : string :=
  match l with
  | [] => ""
  | [x] => x
  | x :: l' => x +:+ sep +:+ join sep l'
  end.

(** A Python [float]: a number, an infinity or NaN.  The scores and
    thresholds above are numbers; the statistics that come out of numpy and
    scipy, and the floats of a request body, need not be. *)
Inductive pyfloat : Type :=
| Num (q : Q)
| PosInf
| NegInf
| NaN.

(** [x > y] for a float [x] and a number [y]; false for NaN. *)
Definition fgtb (x : pyfloat) (y : Q) : bool :=
  match x with
  | Num q => gtb q y
  | PosInf => true
  | NegInf => false
  | NaN => false
  end.

(** [x < y] for a float [x] and a number [y]; false for NaN. *)
Definition fltb (x : pyfloat) (y : Q) : bool :=
  match x with
  | Num q => ltb q y
  | PosInf => false
  | NegInf => true
  | NaN => false
  end.

(** [x <= y] for a float [x] and a number [y]; false for NaN. *)
Definition fleb (x : pyfloat) (y : Q) : bool :=
  match x with
  | Num q => leb q y
  | PosInf => false
  | NegInf => true
  | NaN => false
  end.

End Py.

(** ** The document store *)

Module Mongo.
Import Py.

(** A collection handle: the documents in insertion order, or a handle
    whose every operation raises [e]. *)
Inductive coll (D : Type) : Type :=
| Up (docs : list D)
| Down (e : exn).
Arguments Up {D} docs.
Arguments Down {D} e.

(** The document with the greatest key, the earliest inserted among
    equals. *)
Fixpoint latest {D : Type} (key : D -> Z) (l : list D) : option D :=
  match l with
  | [] => None
  | d :: l' =>
      match latest key l' with
      | Some d' => if (key d <? key d')%Z then Some d' else Some d
      | None => Some d
      end
  end.

(** [c.find_one(sort=[(key, -1)])] *)
Definition find_one_latest {D : Type} (key : D -> Z) (c : coll D)
  : exn + option D :=
  match c with
  | Up docs => inr (latest key docs)
  | Down e => inl e
  end.

(** [c.find_one(filter)] *)
Definition find_one {D : Type} (filter : D -> bool) (c : coll D)
  : exn + option D :=
  match c with
  | Up docs => inr (List.find filter docs)
  | Down e => inl e
  end.

(** [c.count_documents(filter)] *)
Definition count_documents {D : Type} (filter : D -> bool) (c : coll D)
  : exn + Z :=
  match c with
  | Up docs => inr (Z.of_nat (length (List.filter filter docs)))
  | Down e => inl e
  end.

(** [c.insert_one(d)] *)
Definition insert_one {D : Type} (d : D) (c : coll D) : exn + coll D :=
  match c with
  | Up docs => inr (Up (docs ++ [d]))
  | Down e => inl e
  end.

Fixpoint insert_desc {D : Type} (key : D -> Z) (d : D) (l : list D)
  : list D :=
  match l with
  | [] => [d]
  | x :: l' =>
      if (key x <=? key d)%Z then d :: x :: l'
      else x :: insert_desc key d l'
  end.

(** [c.find().sort(key, -1).limit(n)] *)
Definition find_sorted_desc_limit {D : Type} (key : D -> Z) (n : nat)
    (c : coll D) : exn + list D :=
  match c with
  | Up docs => inr (take n (fold_right (insert_desc key) [] docs))
  | Down e => inl e
  end.

(** The first document satisfying [filter] is replaced by [upd] of it.
    The second component is [modified_count]. *)
Fixpoint update_first {D : Type} `{EqDecision D} (filter : D -> bool)
    (upd : D -> D) (l : list D) : list D * Z :=
  match l with
  | [] => ([], 0%Z)
  | d :: l' =>
      if filter d
      then (upd d :: l', if decide (upd d = d) then 0%Z else 1%Z)
      else let '(l'', n) := update_first filter upd l' in (d :: l'', n)
  end.

(** [c.update_one(filter, {"$set": ...})] *)
Definition update_one {D : Type} `{EqDecision D} (filter : D -> bool)
    (upd : D -> D) (c : coll D) : exn + (coll D * Z) :=
  match c with
  | Up docs =>
      let '(docs', n) := update_first filter upd docs in inr (Up docs', n)
  | Down e => inl e
  end.

End Mongo.

(** ** model/governance/trust_engine.py *)

Module TrustEngine.
Import Py Mongo.

(** *** Documents *)

(** A drift log; [psi_score] may be missing from a stored document. *)
Record drift_log : Type := {
  dl_timestamp : Z;
  dl_feature : string;
  dl_drift_detected : bool;
  dl_severity : string;
  dl_ks_statistic : pyfloat;
  dl_p_value : pyfloat;
  dl_psi_score : option pyfloat;
  dl_test_type : string
}.

(** A performance log; [pl_accuracy] is [metrics.accuracy]. *)
Record performance_log : Type := {
  pl_timestamp : Z;
  pl_accuracy : option Q
}.

Record governance_event : Type := {
  ge_timestamp : Z;
  ge_event_type : string;
  ge_previous_level : option string;
  ge_new_level : option string;
  ge_trigger_reason : option string;
  ge_trust_score : option Q;
  ge_trust_score_change : option Q;
  ge_governance_action : option string
}.

Record risk_factors : Type := {
  rf_drift_score : Q;
  rf_accuracy_drop : Q;
  rf_bias_score : Q;
  rf_manual_overrides : Q
}.

(** The keys of [contributing_metrics] computed from the monitoring
    signals; the two keys merged in from the predictions collection
    ([predictions_last_hour], [avg_confidence]) are left out. *)
Record contributing_metrics : Type := {
  cm_drift_severity : string;
  cm_accuracy_drop_percent : Q;
  cm_bias_score : Q;
  cm_manual_overrides_count : Z
}.

(** The dictionary returned by [calculate_trust_score]; a key absent from
    the degraded result is [None].  The free-text [explanation] is left
    out. *)
Record trust_result : Type := {
  tr_timestamp : Z;
  tr_trust_score : Q;
  tr_autonomy_level : string;
  tr_risk_factors : option risk_factors;
  tr_contributing_metrics : option contributing_metrics;
  tr_alerts_triggered : option (list string);
  tr_governance_action : string;
  tr_error : option string
}.

(** An incident is a free-form document: a dictionary from field names
    to values. *)
Inductive value : Type :=
| VNone
| VStr (s : string)
| VNum (q : Q)
| VDatetime (t : Z)
| VObjectId (oid : positive)
| VStrs (l : list string).

#[export] Instance Q_eq_dec : EqDecision Q.
Proof. solve_decision. Defined.

#[export] Instance value_eq_dec : EqDecision value.
Proof. solve_decision. Defined.

Record db : Type := {
  trust_scores : coll trust_result;
  governance_logs : coll governance_event;
  incidents : coll (gmap string value);
  drift_logs : coll drift_log;
  performance_logs : coll performance_log
}.

(** *** [_load_thresholds] *)

Record drift_thresholds : Type :=
  { drift_low : Q; drift_moderate : Q; drift_high : Q }.
Record accuracy_drop_thresholds : Type :=
  { acceptable : Q; concerning : Q; critical : Q }.
Record trust_level_thresholds : Type :=
  { autonomous : Q; human_on_loop : Q; approval_required : Q;
    kill_switch : Q }.
Record weight_table : Type :=
  { w_drift_penalty : Q; w_accuracy_penalty : Q; w_bias_penalty : Q;
    w_override_penalty : Q }.
Record threshold_table : Type := {
  drift : drift_thresholds;
  accuracy_drop : accuracy_drop_thresholds;
  trust_levels : trust_level_thresholds;
  weights : weight_table
}.

Definition _load_thresholds : threshold_table := {|
  drift := {| drift_low := 0.1; drift_moderate := 0.2; drift_high := 0.3 |};
  accuracy_drop :=
    {| acceptable := 0.02; concerning := 0.05; critical := 0.10 |};
  trust_levels :=
    {| autonomous := 80; human_on_loop := 60; approval_required := 40;
       kill_switch := 0 |};
  weights :=
    {| w_drift_penalty := 30; w_accuracy_penalty := 25;
       w_bias_penalty := 20; w_override_penalty := 10 |}
|}.

Definition thresholds : threshold_table := _load_thresholds.

(** *** The monitoring signals *)

Definition _get_drift_severity (s : db) : string :=
  match find_one_latest dl_timestamp (drift_logs s) with
  | inr None => "low"
  | inr (Some recent_drift) =>
      let psi_score := default (Num 0) (dl_psi_score recent_drift) in
      if fgtb psi_score (drift_high (drift thresholds)) then "high"
      else if fgtb psi_score (drift_moderate (drift thresholds))
           then "moderate"
           else "low"
  | inl e => "low"
  end.

Definition _get_accuracy_drop (s : db) : Q :=
  let baseline_accuracy := 0.95 in
  match find_one_latest pl_timestamp (performance_logs s) with
  | inr None => 0.0
  | inr (Some recent_perf) =>
      let current_accuracy :=
        default baseline_accuracy (pl_accuracy recent_perf) in
      Py.max 0 (baseline_accuracy - current_accuracy)
  | inl e => 0.0
  end.

(** The body of the [try] cannot raise; the handler returning 0.5 is
    dead code. *)
Definition _get_bias_score (s : db) : Q := 0.15.

Definition _get_recent_overrides (now : Z) (s : db) : Z :=
  let cutoff := (now - 24 * 3600 * 1000)%Z in
  match
    count_documents
      (fun ev => (cutoff <=? ge_timestamp ev)%Z
                 && bool_decide (ge_event_type ev = "manual_override"))
      (governance_logs s)
  with
  | inr count => count
  | inl e => 0%Z
  end.

(** *** Penalties *)

Definition _calculate_drift_penalty (severity : string) : Q :=
  let penalties : gmap string Q :=
    <["low" := 5]> (<["moderate" := 15]> (<["high" := 30]> ∅)) in
  default 0 (penalties !! severity).

Definition _calculate_accuracy_penalty (drop : Q) : Q :=
  if ltb drop (acceptable (accuracy_drop thresholds)) then 0
  else if ltb drop (concerning (accuracy_drop thresholds)) then 10
  else if ltb drop (critical (accuracy_drop thresholds)) then 20
  else 25.

(** *** Autonomy level, alerts, governance action *)

Definition _determine_autonomy_level (trust_score : Q) : string :=
  let thresholds := trust_levels thresholds in
  if geb trust_score (autonomous thresholds) then "fully_autonomous"
  else if geb trust_score (human_on_loop thresholds) then "human-on-loop"
  else if geb trust_score (approval_required thresholds)
       then "approval_required"
       else "kill_switch".

Definition _check_alerts (drift_severity : string) (accuracy_drop_ : Q)
    (trust_score : Q) : list string :=
  let alerts := [] in
  (* Drift alerts *)
  let alerts :=
    if decide (drift_severity = "high") then alerts ++ ["critical_drift"]
    else if decide (drift_severity = "moderate")
         then alerts ++ ["moderate_drift"]
         else alerts in
  (* Accuracy alerts *)
  let alerts :=
    if gtb accuracy_drop_ (critical (accuracy_drop thresholds))
    then alerts ++ ["critical_accuracy_drop"]
    else if gtb accuracy_drop_ (concerning (accuracy_drop thresholds))
         then alerts ++ ["accuracy_degradation"]
         else alerts in
  (* Trust score alerts *)
  let alerts :=
    if ltb trust_score (approval_required (trust_levels thresholds))
    then alerts ++ ["low_trust_score"]
    else if ltb trust_score (human_on_loop (trust_levels thresholds))
         then alerts ++ ["very_low_trust_score"]
         else alerts in
  alerts.

Definition _determine_governance_action (trust_score : Q)
    (alerts : list string) : string :=
  if bool_decide ("critical_drift" ∈ alerts)
     || bool_decide ("critical_accuracy_drop" ∈ alerts)
  then "kill_switch"
  else if ltb trust_score (approval_required (trust_levels thresholds))
       then "require_approval"
       else if ltb trust_score (human_on_loop (trust_levels thresholds))
            then "human_review"
            else "none".

(** *** The score *)

(** Lines 90-97: the penalties and the clamped score, as a function of
    the four values read. *)
Definition trust_score_of (drift_severity : string) (accuracy_drop_ : Q)
    (bias_score : Q) (manual_overrides : Z) : Q :=
  let drift_penalty := _calculate_drift_penalty drift_severity in
  let accuracy_penalty := _calculate_accuracy_penalty accuracy_drop_ in
  let bias_penalty := bias_score * w_bias_penalty (weights thresholds) in
  let override_penalty :=
    inject_Z manual_overrides * w_override_penalty (weights thresholds) in
  let trust_score :=
    100 - drift_penalty - accuracy_penalty - bias_penalty
    - override_penalty in
  Py.max 0 (Py.min 100 trust_score).

(** [_log_governance_event]: its own [try] swallows every exception. *)
Definition _log_governance_event (now : Z) (s : db)
    (trust_result_ : trust_result) : db :=
  match find_sorted_desc_limit tr_timestamp 2 (trust_scores s) with
  | inr previous_scores =>
      match previous_scores with
      | _ :: previous :: _ =>
          let previous_level := tr_autonomy_level previous in
          let new_level := tr_autonomy_level trust_result_ in
          if decide (previous_level <> new_level) then
            let event := {|
              ge_timestamp := now;
              ge_event_type := "autonomy_change";
              ge_previous_level := Some previous_level;
              ge_new_level := Some new_level;
              ge_trigger_reason :=
                Some (join ", "
                        (default [] (tr_alerts_triggered trust_result_)));
              ge_trust_score := Some (tr_trust_score trust_result_);
              ge_trust_score_change :=
                Some (tr_trust_score trust_result_
                      - tr_trust_score previous);
              ge_governance_action :=
                Some (tr_governance_action trust_result_)
            |} in
            match insert_one event (governance_logs s) with
            | inr logs' =>
                {| trust_scores := trust_scores s;
                   governance_logs := logs';
                   incidents := incidents s;
                   drift_logs := drift_logs s;
                   performance_logs := performance_logs s |}
            | inl e => s
            end
          else s
      | _ => s
      end
  | inl e => s
  end.

(** The body of the [try] of [calculate_trust_score]. *)
Definition calculate_trust_score_body (now : Z) (s : db)
  : exn + (db * trust_result) :=
  (* Get latest metrics *)
  let drift_severity := _get_drift_severity s in
  let accuracy_drop_ := _get_accuracy_drop s in
  let bias_score := _get_bias_score s in
  let manual_overrides := _get_recent_overrides now s in
  (* Calculate penalties *)
  let drift_penalty := _calculate_drift_penalty drift_severity in
  let accuracy_penalty := _calculate_accuracy_penalty accuracy_drop_ in
  let bias_penalty := bias_score * w_bias_penalty (weights thresholds) in
  let override_penalty :=
    inject_Z manual_overrides * w_override_penalty (weights thresholds) in
  (* Calculate trust score *)
  let trust_score :=
    100 - drift_penalty - accuracy_penalty - bias_penalty
    - override_penalty in
  let trust_score := Py.max 0 (Py.min 100 trust_score) in
  let autonomy_level := _determine_autonomy_level trust_score in
  let alerts := _check_alerts drift_severity accuracy_drop_ trust_score in
  let governance_action :=
    _determine_governance_action trust_score alerts in
  let result := {|
    tr_timestamp := now;
    tr_trust_score := Py.round trust_score 2;
    tr_autonomy_level := autonomy_level;
    tr_risk_factors := Some {|
      rf_drift_score := Py.round drift_penalty 2;
      rf_accuracy_drop := Py.round accuracy_penalty 2;
      rf_bias_score := Py.round bias_penalty 2;
      rf_manual_overrides := Py.round override_penalty 2 |};
    tr_contributing_metrics := Some {|
      cm_drift_severity := drift_severity;
      cm_accuracy_drop_percent := Py.round (accuracy_drop_ * 100) 2;
      cm_bias_score := Py.round bias_score 3;
      cm_manual_overrides_count := manual_overrides |};
    tr_alerts_triggered := Some alerts;
    tr_governance_action := governance_action;
    tr_error := None
  |} in
  (* Log to database *)
  match insert_one result (trust_scores s) with
  | inl e => inl e
  | inr scores' =>
      let s1 := {| trust_scores := scores';
                   governance_logs := governance_logs s;
                   incidents := incidents s;
                   drift_logs := drift_logs s;
                   performance_logs := performance_logs s |} in
      (* Log governance action if needed *)
      let s2 :=
        if decide (governance_action <> "none")
        then _log_governance_event now s1 result
        else s1 in
      inr (s2, result)
  end.

(** The result built by the [except] handler. *)
Definition degraded_result (now : Z) (e : exn) : trust_result := {|
  tr_timestamp := now;
  tr_trust_score := 0;
  tr_autonomy_level := "kill_switch";
  tr_risk_factors := None;
  tr_contributing_metrics := None;
  tr_alerts_triggered := None;
  tr_governance_action := "kill_switch";
  tr_error := Some (str e)
|}.

Definition calculate_trust_score (now : Z) (s : db) : db * trust_result :=
  match calculate_trust_score_body now s with
  | inr r => r
  | inl e => (s, degraded_result now e)
  end.

(** *** Incidents *)

Section Incidents.
(** [datetime.isoformat()] and [str()], from the language. *)
Variable isoformat : Z -> string.
Variable py_str : value -> string.

(** [str(v)] *)
Definition str_value (v : value) : exn + string := inr (py_str v).

(** [v.isoformat()] *)
Definition isoformat_value (v : value) : exn + string :=
  match v with
  | VDatetime t => inr (isoformat t)
  | _ => inl (AttributeError "object has no attribute 'isoformat'")
  end.

(** [incident[k] = f(incident[k])] on the fetched copy. *)
Definition convert_field (k : string) (f : value -> exn + string)
    (incident : gmap string value) : exn + gmap string value :=
  match incident !! k with
  | None => inl (KeyError k)
  | Some v =>
      match f v with
      | inl e => inl e
      | inr s => inr (<[k := VStr s]> incident)
      end
  end.

(** The filter [{"incident_id": incident_id}]. *)
Definition has_incident_id (incident_id : string)
    (d : gmap string value) : bool :=
  bool_decide (d !! "incident_id" = Some (VStr incident_id)).

(** The update [{"$set": {"status": "resolved", "resolved_at": now,
    "resolution_notes": resolution_notes}}]. *)
Definition set_resolved (now : Z) (resolution_notes : string)
    (d : gmap string value) : gmap string value :=
  <["resolution_notes" := VStr resolution_notes]>
    (<["resolved_at" := VDatetime now]>
       (<["status" := VStr "resolved"]> d)).

Definition error_result (msg : string) : gmap string value :=
  {["error" := VStr msg]}.

Definition with_incidents (s : db) (c : coll (gmap string value)) : db :=
  {| trust_scores := trust_scores s;
     governance_logs := governance_logs s;
     incidents := c;
     drift_logs := drift_logs s;
     performance_logs := performance_logs s |}.

Definition resolve_incident (now : Z) (incident_id : string)
    (resolution_notes : string) (s : db) : db * gmap string value :=
  match
    update_one (has_incident_id incident_id)
      (set_resolved now resolution_notes) (incidents s)
  with
  | inl e => (s, error_result (str e))
  | inr (incidents', modified_count) =>
      let s' := with_incidents s incidents' in
      if (0 <? modified_count)%Z then
        match find_one (has_incident_id incident_id) incidents' with
        | inl e => (s', error_result (str e))
        | inr None =>
            (s', error_result "'NoneType' object is not subscriptable")
        | inr (Some incident) =>
            match convert_field "_id" str_value incident with
            | inl e => (s', error_result (str e))
            | inr incident =>
                match
                  convert_field "detected_at" isoformat_value incident
                with
                | inl e => (s', error_result (str e))
                | inr incident =>
                    match
                      convert_field "resolved_at" isoformat_value incident
                    with
                    | inl e => (s', error_result (str e))
                    | inr incident => (s', incident)
                    end
                end
            end
        end
      else (s', error_result "Incident not found")
  end.

End Incidents.

(** *** [_generate_explanation] *)

Section Explanation.
(** [f"{x:.1f}"], from the language. *)
Variable format_1f : Q -> string.

(** The sentences of the explanation, in order.  The [autonomy_level]
    argument is not read. *)
Definition explanation_sentences (trust_score : Q) (autonomy_level : string)
    (drift_severity : string) (accuracy_drop_ : Q) (alerts : list string)
  : list string :=
  let explanations := [] in
  (* Trust level explanation *)
  let explanations :=
    if geb trust_score 80
    then explanations ++ ["Model is operating within normal parameters."]
    else if geb trust_score 60
    then explanations
         ++ ["Model performance is acceptable but requires monitoring."]
    else if geb trust_score 40
    then explanations
         ++ ["Model performance has degraded. Human approval required for high-risk decisions."]
    else explanations
         ++ ["Model performance is critically low. Manual review required."]
  in
  (* Drift explanation *)
  let explanations :=
    if decide (drift_severity = "high")
    then explanations
         ++ ["Critical data drift detected - input distribution has changed significantly."]
    else if decide (drift_severity = "moderate")
    then explanations
         ++ ["Moderate data drift detected - input distribution is shifting."]
    else explanations in
  (* Accuracy explanation *)
  let explanations :=
    if gtb accuracy_drop_ 0.05
    then explanations
         ++ ["Model accuracy has dropped by "
             +:+ format_1f (accuracy_drop_ * 100) +:+ "%."]
    else explanations in
  (* Alert explanation *)
  let explanations :=
    match alerts with
    | [] => explanations
    | _ => explanations ++ ["Active alerts: " +:+ join ", " alerts +:+ "."]
    end in
  explanations.

Definition _generate_explanation (trust_score : Q) (autonomy_level : string)
    (drift_severity : string) (accuracy_drop_ : Q) (alerts : list string)
  : string :=
  join " "
    (explanation_sentences trust_score autonomy_level drift_severity
       accuracy_drop_ alerts).

End Explanation.

(** *** [simulate_drift_incident] *)

Section Simulation.
(** [now.strftime('%Y%m%d%H%M%S')], from the language. *)
Variable strftime : Z -> string.

(** The dictionary returned by [simulate_drift_incident]. *)
Record simulation_result : Type := {
  sim_error : option string;
  sim_incident : option (gmap string value);
  sim_trust_result : option trust_result
}.

Definition set_drift_logs (s : db) (c : coll drift_log) : db := {|
  trust_scores := trust_scores s;
  governance_logs := governance_logs s;
  incidents := incidents s;
  drift_logs := c;
  performance_logs := performance_logs s
|}.

(** [oid] is the [_id] the driver gives the incident on insertion. *)
Definition simulate_drift_incident (now : Z) (oid : positive) (s : db)
  : db * simulation_result :=
  (* Create fake high drift log *)
  let fake_drift := {|
    dl_timestamp := now;
    dl_feature := "income";
    dl_drift_detected := true;
    dl_severity := "high";
    dl_ks_statistic := Num 0.45;
    dl_p_value := Num 0.001;
    dl_psi_score := Some (Num 0.35);
    dl_test_type := "simulated"
  |} in
  match insert_one fake_drift (drift_logs s) with
  | inl e =>
      (s, {| sim_error := Some (str e); sim_incident := None;
             sim_trust_result := None |})
  | inr logs' =>
      let s1 := set_drift_logs s logs' in
      (* Recalculate trust *)
      let '(s2, trust_result_) := calculate_trust_score now s1 in
      (* Create incident record *)
      let incident : gmap string value :=
        list_to_map
          [("incident_id", VStr ("INC-" +:+ strftime now));
           ("severity", VStr "high");
           ("type", VStr "data_drift");
           ("detected_at", VDatetime now);
           ("resolved_at", VNone);
           ("status", VStr "open");
           ("description",
             VStr "Income feature drift PSI > 0.3 (simulated)");
           ("affected_features", VStrs ["income"]);
           ("actions_taken",
             VStrs ["reduced_autonomy"; "notification_sent";
                    "trust_score_recalculated"]);
           ("resolution_notes", VNone);
           ("trust_score_at_detection",
             VNum (tr_trust_score trust_result_));
           ("autonomy_level", VStr (tr_autonomy_level trust_result_))] in
      let incident := <["_id" := VObjectId oid]> incident in
      match insert_one incident (incidents s2) with
      | inl e =>
          (s2, {| sim_error := Some (str e); sim_incident := None;
                  sim_trust_result := None |})
      | inr incidents' =>
          (with_incidents s2 incidents',
           {| sim_error := None; sim_incident := Some incident;
              sim_trust_result := Some trust_result_ |})
      end
  end.

End Simulation.

End TrustEngine.

(** ** model/monitoring/drift_detector.py *)

Module DriftDetector.
Import Py Mongo TrustEngine.

Section CheckDrift.
(** [scipy.stats.ks_2samp], and [calculate_psi], whose histogram and
    logarithm are numpy's; both are taken as given.  Their results are
    floats: the PSI of an empty current sample is NaN. *)
Variable ks_2samp : list Q -> list Q -> exn + (pyfloat * pyfloat).
Variable calculate_psi : list Q -> list Q -> pyfloat.

Definition ks_test (training_data current_data : list Q) (alpha : Q)
  : bool * pyfloat * pyfloat :=
  match ks_2samp training_data current_data with
  | inr (statistic, p_value) =>
      let drift_detected := fltb p_value alpha in
      (drift_detected, statistic, p_value)
  | inl e => (false, Num 0.0, Num 1.0)
  end.

(** The [distribution_comparison] entry (numpy means and deviations) is
    left out of the record. *)
Definition check_drift (now : Z) (feature_name : string)
    (training_data current_data : list Q) (alpha : Q)
    (logs : coll drift_log) : coll drift_log * drift_log :=
  (* KS Test *)
  let '(drift_detected, ks_stat, p_value) :=
    ks_test training_data current_data alpha in
  (* PSI *)
  let psi_score := calculate_psi training_data current_data in
  (* Determine drift severity *)
  let severity :=
    if fgtb psi_score 0.2 || (drift_detected && fgtb ks_stat 0.3)
    then "high"
    else if fgtb psi_score 0.1 || drift_detected then "moderate"
    else "low" in
  let result := {|
    dl_timestamp := now;
    dl_feature := feature_name;
    dl_drift_detected := drift_detected || fgtb psi_score 0.2;
    dl_severity := severity;
    dl_ks_statistic := ks_stat;
    dl_p_value := p_value;
    dl_psi_score := Some psi_score;
    dl_test_type := "ks_test_and_psi"
  |} in
  (* Log to MongoDB *)
  match insert_one result logs with
  | inr logs' => (logs', result)
  | inl e => (logs, result)
  end.

End CheckDrift.

End DriftDetector.

(** ** model/ml_model.py *)

Module CreditRiskModel.
Import Py.

Inductive RiskCategory : Type := LOW | MEDIUM | HIGH.

(** [RiskCategory.X.value] *)
Definition value (c : RiskCategory) : string :=
  match c with
  | LOW => "Low"
  | MEDIUM => "Medium"
  | HIGH => "High"
  end.

Definition _map_risk_category (approval_probability : Q) : string :=
  if gtb approval_probability 0.7 then value LOW
  else if geb approval_probability 0.3 then value MEDIUM
  else value HIGH.

(** *** [predict] *)

(** [schemas.CustomerData], after construction.  The three [float] fields
    take whatever float the request carries, NaN included. *)
Record CustomerData : Type := {
  income : pyfloat;
  age : Z;
  loan_amount : pyfloat;
  credit_history : string;
  employment_type : string;
  existing_debts : pyfloat
}.

(** The field validators of [schemas.CustomerData], in field order: the
    messages of those that raise. *)
Definition validation_errors (v : CustomerData) : list string :=
  (if fleb (income v) 0 then ["income must be greater than 0"] else [])
  ++ (if (age v <? 18)%Z || (100 <? age v)%Z
      then ["age must be between 18 and 100"] else [])
  ++ (if fleb (loan_amount v) 0
      then ["loan_amount must be greater than 0"] else [])
  ++ (if bool_decide (credit_history v ∉ ["Good"; "Fair"; "Poor"])
      then ["credit_history must be one of ['Good', 'Fair', 'Poor']"]
      else [])
  ++ (if bool_decide
           (employment_type v
              ∉ ["Full-time"; "Part-time"; "Self-employed"; "Unemployed"])
      then ["employment_type must be one of ['Full-time', 'Part-time', 'Self-employed', 'Unemployed']"]
      else [])
  ++ (if fltb (existing_debts v) 0
      then ["existing_debts must be greater than or equal to 0"] else []).

Inductive predict_error : Type :=
| ValueError (msg : string)
| Raised (e : exn).

(** [max(xs)] for a non-empty sequence. *)
Definition max_of (x : Q) (xs : list Q) : Q := fold_left Py.max xs x.

Definition credit_history_map : gmap string Q :=
  <["Good" := 2]> (<["Fair" := 1]> (<["Poor" := 0]> ∅)).

Definition employment_type_map : gmap string Q :=
  <["Full-time" := 3]>
    (<["Part-time" := 2]> (<["Self-employed" := 1]> (<["Unemployed" := 0]> ∅))).

Section Predict.
(** [self.model]: when loaded, [predict_proba(features)[0]] of the
    classifier. *)
Variable model : option (list pyfloat -> exn + list Q).

Definition predict (customer_data : CustomerData)
  : predict_error + (Q * string * Q) :=
  match model with
  | None => inl (ValueError "Model not loaded. Call load_model() first.")
  | Some predict_proba =>
      (* Encode categorical features *)
      let credit_encoded :=
        default 1 (credit_history_map !! credit_history customer_data) in
      let employment_encoded :=
        default 0 (employment_type_map !! employment_type customer_data) in
      (* Prepare features array *)
      let features :=
        [income customer_data; Num (inject_Z (age customer_data));
         loan_amount customer_data; Num credit_encoded;
         Num employment_encoded; existing_debts customer_data] in
      match predict_proba features with
      | inl e => inl (Raised e)
      | inr prediction_proba =>
          match prediction_proba with
          | _ :: approval_probability :: _ =>
              let confidence_score :=
                match prediction_proba with
                | x :: xs => max_of x xs
                | [] => 0
                end in
              let risk_category := _map_risk_category approval_probability in
              inr (approval_probability, risk_category, confidence_score)
          | _ =>
              inl (Raised (IndexError "index 1 is out of bounds"))
          end
      end
  end.

End Predict.

End CreditRiskModel.

(** ** model/llm/openrouter_service.py *)

Module OpenRouterLLMService.
Import Py.

(** Text is ASCII: the character classes below are Python's on code
    points below 128. *)

(** [c.isupper()] *)
Definition isupper (c : ascii) : bool :=
  let n := nat_of_ascii c in (65 <=? n)%nat && (n <=? 90)%nat.

(** [c.isspace()] *)
Definition isspace (c : ascii) : bool :=
  let n := nat_of_ascii c in
  ((9 <=? n)%nat && (n <=? 13)%nat)
  || ((28 <=? n)%nat && (n <=? 32)%nat).

(** A character matched by [\w]. *)
Definition isword (c : ascii) : bool :=
  let n := nat_of_ascii c in
  ((48 <=? n)%nat && (n <=? 57)%nat)
  || ((65 <=? n)%nat && (n <=? 90)%nat)
  || (n =? 95)%nat
  || ((97 <=? n)%nat && (n <=? 122)%nat).

Definition lower_char (c : ascii) : ascii :=
  if isupper c then ascii_of_nat (nat_of_ascii c + 32) else c.

(** [s.lower()] *)
Fixpoint lower (s : string) : string :=
  match s with
  | EmptyString => EmptyString
  | String c s' => String (lower_char c) (lower s')
  end.

(** [s.count(c)] for a one-character [c]. *)
Fixpoint count (c : ascii) (s : string) : nat :=
  match s with
  | EmptyString => 0
  | String x s' => ((if Ascii.eqb x c then 1 else 0) + count c s')%nat
  end.

Fixpoint lstrip (s : string) : string :=
  match s with
  | EmptyString => EmptyString
  | String c s' => if isspace c then lstrip s' else s
  end.

(** [s.strip()] *)
Definition strip (s : string) : string :=
  String.rev (lstrip (String.rev (lstrip s))).

(** [s[0]] *)
Definition first_char (s : string) : exn + ascii :=
  match s with
  | EmptyString => inl (IndexError "string index out of range")
  | String c _ => inr c
  end.

(** [s[-1]] *)
Fixpoint last_char (s : string) : exn + ascii :=
  match s with
  | EmptyString => inl (IndexError "string index out of range")
  | String c EmptyString => inr c
  | String _ s' => last_char s'
  end.

(** [sub in s] *)
Fixpoint contains (sub s : string) : bool :=
  String.prefix sub s
  || match s with
     | EmptyString => false
     | String _ s' => contains sub s'
     end.

(** [re.findall(r'\w+', s)]; [acc] is the current word, reversed. *)
Fixpoint findall_words_from (acc : string) (s : string) : list string :=
  let flush :=
    match acc with
    | EmptyString => []
    | _ => [String.rev acc]
    end in
  match s with
  | EmptyString => flush
  | String c s' =>
      if isword c then findall_words_from (String c acc) s'
      else flush ++ findall_words_from EmptyString s'
  end.

Definition findall_words (s : string) : list string :=
  findall_words_from EmptyString s.

Definition common_words : gset string :=
  list_to_set
    ["the"; "a"; "an"; "and"; "or"; "but"; "in"; "on"; "at"; "to"; "for";
     "of"; "with"; "is"; "are"; "was"; "were"].

Definition professional_indicators : list string :=
  ["please"; "thank you"; "contact"; "information"; "service"; "account"].

Definition calculate_quality_score (response prompt : string) : exn + Q :=
  let score := 1.0 in
  (* Length check *)
  let response_length := String.length response in
  let score :=
    if (response_length <? 50)%nat then score - 0.3
    else if (1500 <? response_length)%nat then score - 0.15
    else score in
  (* Structure check *)
  let sentences :=
    (count "." response + count "!" response + count "?" response)%nat in
  let score := if (sentences <? 2)%nat then score - 0.2 else score in
  (* Check for proper capitalization and punctuation *)
  match first_char response with
  | inl e => inl e
  | inr c0 =>
      let score := if negb (isupper c0) then score - 0.1 else score in
      match last_char (strip response) with
      | inl e => inl e
      | inr cl =>
          let score :=
            if negb (bool_decide (cl ∈ ["."; "!"; "?"]%char))
            then score - 0.1 else score in
          (* Relevance check - keyword overlap *)
          let prompt_words : gset string :=
            list_to_set (findall_words (lower prompt)) in
          let response_words : gset string :=
            list_to_set (findall_words (lower response)) in
          let prompt_words := prompt_words ∖ common_words in
          let response_words := response_words ∖ common_words in
          let score :=
            if (0 <? size prompt_words)%nat then
              let overlap :=
                inject_Z (Z.of_nat (size (prompt_words ∩ response_words)))
                / inject_Z (Z.of_nat (size prompt_words)) in
              if ltb overlap 0.2 then score - 0.3
              else if ltb overlap 0.4 then score - 0.1
              else score
            else score in
          (* Check for professional banking tone *)
          let professional_count :=
            length
              (List.filter (fun word => contains word (lower response))
                 professional_indicators) in
          let score :=
            if (professional_count =? 0)%nat then score - 0.1 else score in
          inr (Py.max 0.0 (Py.min 1.0 score))
      end
  end.

(** *** [check_safety] *)

Definition unsafe_keywords : list string :=
  ["hack"; "exploit"; "fraud"; "scam"; "illegal";
   "money laundering"; "tax evasion"; "insider trading";
   "ponzi"; "pyramid scheme"; "steal"; "cheat"].

(** The dictionary returned by [check_safety]. *)
Record safety_report : Type := {
  safety_passed : bool;
  violations : list string;
  severity : string;
  violation_count : nat
}.

Definition check_safety (text : string) : safety_report :=
  let text_lower := lower text in
  let violations :=
    List.filter (fun kw => contains kw text_lower) unsafe_keywords in
  let severity := "none" in
  let severity :=
    if (0 <? length violations)%nat
    then (if (2 <? length violations)%nat then "high" else "medium")
    else severity in
  {| safety_passed := (length violations =? 0)%nat;
     violations := violations;
     severity := severity;
     violation_count := length violations |}.

(** *** [detect_hallucination] *)

Definition hallucination_indicators : list string :=
  ["I don't have access to";
   "I cannot verify";
   "As an AI";
   "I apologize, but I don't have real-time";
   "I don't have information about";
   "fictional";
   "made up";
   "I cannot provide";
   "I'm not able to"].

Definition risky_claims : list string :=
  ["guaranteed return"; "risk-free"; "definitely will"; "100% safe";
   "no risk"; "guaranteed profit"].

Definition disclaimer_words : list string :=
  ["disclaimer"; "consult"; "financial advisor"; "terms apply";
   "subject to"; "may vary"; "conditions apply"].

(** The dictionary returned by [detect_hallucination]. *)
Record hallucination_report : Type := {
  hallucination_detected : bool;
  confidence : Q;
  indicators_found : list string;
  has_disclaimer : bool
}.

Definition detect_hallucination (prompt response : string)
  : hallucination_report :=
  let response_lower := lower response in
  let detected_indicators :=
    List.filter (fun ind => contains (lower ind) response_lower)
      hallucination_indicators in
  (* Banking-specific: check for risky claims without disclaimers *)
  let risky_detected :=
    List.filter (fun claim => contains claim response_lower) risky_claims in
  let has_disclaimer :=
    existsb (fun word => contains word response_lower) disclaimer_words in
  let hallucination_detected :=
    (0 <? length detected_indicators)%nat
    || ((0 <? length risky_detected)%nat && negb has_disclaimer) in
  {| hallucination_detected := hallucination_detected;
     confidence := if hallucination_detected then 0.6 else 0.95;
     indicators_found := detected_indicators ++ risky_detected;
     has_disclaimer := has_disclaimer |}.

End OpenRouterLLMService.

(** ** Notions used in the statements *)

Module Spec.

(** Integer-valued rationals: the penalties and the score. *)
Definition integral (q : Q) : Prop := exists k : Z, q == inject_Z k.

(** Severities in increasing order. *)
Definition severity_rank (severity : string) : nat :=
  if decide (severity = "high") then 2
  else if decide (severity = "moderate") then 1
  else 0.

(** The opening sentence of the explanation that belongs to a level. *)
Definition level_sentence (autonomy_level : string) : string :=
  if decide (autonomy_level = "fully_autonomous")
  then "Model is operating within normal parameters."
  else if decide (autonomy_level = "human-on-loop")
  then "Model performance is acceptable but requires monitoring."
  else if decide (autonomy_level = "approval_required")
  then "Model performance has degraded. Human approval required for high-risk decisions."
  else "Model performance is critically low. Manual review required.".

(** Risk categories from the safest to the riskiest. *)
Definition risk_rank (category : string) : nat :=
  if decide (category = "Low") then 0
  else if decide (category = "Medium") then 1
  else 2.

(** [x] is above, below, at most the number [y], in the mathematical
    sense: NaN is neither. *)
Definition above (x : Py.pyfloat) (y : Q) : Prop :=
  match x with
  | Py.Num q => y < q
  | Py.PosInf => True
  | Py.NegInf => False
  | Py.NaN => False
  end.

Definition below (x : Py.pyfloat) (y : Q) : Prop :=
  match x with
  | Py.Num q => q < y
  | Py.PosInf => False
  | Py.NegInf => True
  | Py.NaN => False
  end.

Definition at_most (x : Py.pyfloat) (y : Q) : Prop :=
  match x with
  | Py.Num q => q <= y
  | Py.PosInf => False
  | Py.NegInf => True
  | Py.NaN => False
  end.

End Spec.

(** ** Concrete stores for the examples *)

Module Fixtures.
Import Py Mongo TrustEngine.

(** Every collection reachable and empty. *)
Definition empty_db : db := {|
  trust_scores := Up [];
  governance_logs := Up [];
  incidents := Up [];
  drift_logs := Up [];
  performance_logs := Up []
|}.

(** The trust score collection is unreachable. *)
Definition scores_down_db : db := {|
  trust_scores := Down (PyMongoError "connection refused");
  governance_logs := Up [];
  incidents := Up [];
  drift_logs := Up [];
  performance_logs := Up []
|}.

(** The drift log written by [simulate_drift_incident]. *)
Definition fake_drift (now : Z) : drift_log := {|
  dl_timestamp := now;
  dl_feature := "income";
  dl_drift_detected := true;
  dl_severity := "high";
  dl_ks_statistic := Num 0.45;
  dl_p_value := Num 0.001;
  dl_psi_score := Some (Num 0.35);
  dl_test_type := "simulated"
|}.

Definition high_drift_db : db := {|
  trust_scores := Up [];
  governance_logs := Up [];
  incidents := Up [];
  drift_logs := Up [fake_drift 500];
  performance_logs := Up []
|}.

(** The incident written by [simulate_drift_incident]. *)
Definition incident (incident_id : string) (detected_at : Z)
  : gmap string value :=
  list_to_map
    [("_id", VObjectId 1);
     ("incident_id", VStr incident_id);
     ("severity", VStr "high");
     ("type", VStr "data_drift");
     ("detected_at", VDatetime detected_at);
     ("resolved_at", VNone);
     ("status", VStr "open");
     ("description", VStr "Income feature drift PSI > 0.3 (simulated)");
     ("affected_features", VStrs ["income"]);
     ("actions_taken",
       VStrs ["reduced_autonomy"; "notification_sent";
              "trust_score_recalculated"]);
     ("resolution_notes", VNone);
     ("trust_score_at_detection", VNum 62);
     ("autonomy_level", VStr "human-on-loop")].

Definition two_incidents_db : db := {|
  trust_scores := Up [];
  governance_logs := Up [];
  incidents := Up [incident "INC-1" 100; incident "INC-2" 200];
  drift_logs := Up [];
  performance_logs := Up []
|}.

Definition with_drift_logs (s : db) (c : coll drift_log) : db := {|
  trust_scores := trust_scores s;
  governance_logs := governance_logs s;
  incidents := incidents s;
  drift_logs := c;
  performance_logs := performance_logs s
|}.

(** A drift check whose KS test finds nothing (statistic 0.1, p-value 1)
    and whose PSI is 0.25, logged into an empty collection. *)
Definition psi_quarter_check : coll drift_log * drift_log :=
  DriftDetector.check_drift (fun _ _ => inr (Num 0.1, Num 1))
    (fun _ _ => Num 0.25) 1000 "income" [1; 2; 3] [1; 2; 4] 0.05 (Up []).

(** A manual override logged at [t]. *)
Definition manual_override (t : Z) : governance_event := {|
  ge_timestamp := t;
  ge_event_type := "manual_override";
  ge_previous_level := None;
  ge_new_level := None;
  ge_trigger_reason := None;
  ge_trust_score := None;
  ge_trust_score_change := None;
  ge_governance_action := None
|}.

(** Ten manual overrides within the day before instant 1000. *)
Definition ten_overrides_db : db := {|
  trust_scores := Up [];
  governance_logs := Up (map manual_override [1; 2; 3; 4; 5; 6; 7; 8; 9; 10]%Z);
  incidents := Up [];
  drift_logs := Up [];
  performance_logs := Up []
|}.

(** An incident resolved at instant 900 with the notes ["fixed"]. *)
Definition resolved_incident : gmap string value :=
  set_resolved 900 "fixed" (incident "INC-7" 100).

Definition resolved_incident_db : db := {|
  trust_scores := Up [];
  governance_logs := Up [];
  incidents := Up [resolved_incident];
  drift_logs := Up [];
  performance_logs := Up []
|}.

(** Field [k] of the first incident with the id, if there is one. *)
Definition incident_field (incident_id k : string) (s : db) : option value :=
  match find_one (has_incident_id incident_id) (incidents s) with
  | inr (Some d) => d !! k
  | _ => None
  end.

(** [INC-2] resolved at instant 900, and then once more at instant 950. *)
Definition resolved_once_db : db :=
  (resolve_incident (fun _ => "t") (fun _ => "id") 900 "INC-2" "fixed"
     two_incidents_db).1.

Definition resolved_twice_db : db :=
  (resolve_incident (fun _ => "t") (fun _ => "id") 950 "INC-2" "changed"
     resolved_once_db).1.

(** A customer that passes validation. *)
Definition good_customer : CreditRiskModel.CustomerData := {|
  CreditRiskModel.income := Num 65000;
  CreditRiskModel.age := 35;
  CreditRiskModel.loan_amount := Num 20000;
  CreditRiskModel.credit_history := "Good";
  CreditRiskModel.employment_type := "Full-time";
  CreditRiskModel.existing_debts := Num 5000
|}.

(** A classifier that approves with probability 0.8. *)
Definition approving_model : option (list pyfloat -> exn + list Q) :=
  Some (fun _ => inr [0.2; 0.8]).

(** A request whose income is NaN; every validator lets it through. *)
Definition nan_income_customer : CreditRiskModel.CustomerData := {|
  CreditRiskModel.income := NaN;
  CreditRiskModel.age := 35;
  CreditRiskModel.loan_amount := Num 20000;
  CreditRiskModel.credit_history := "Good";
  CreditRiskModel.employment_type := "Full-time";
  CreditRiskModel.existing_debts := Num 5000
|}.

(** The drift logs are unreachable, everything else is reachable and
    empty. *)
Definition drift_down_db : db := {|
  trust_scores := Up [];
  governance_logs := Up [];
  incidents := Up [];
  drift_logs := Down (PyMongoError "connection refused");
  performance_logs := Up []
|}.

(** A drift check on an empty current sample: the KS test raises and the
    PSI is NaN. *)
Definition nan_psi_check : coll drift_log * drift_log :=
  DriftDetector.check_drift (fun _ _ => inl (IndexError "empty sample"))
    (fun _ _ => NaN) 1000 "income" [1; 2; 3] [] 0.05 (Up []).

End Fixtures.

(** * Properties *)

Import Py Mongo TrustEngine Spec.

Ltac split_cases :=
  repeat match goal with
    | H : _ \/ _ |- _ => destruct H as [H | H]
    | H : _ /\ _ |- _ => destruct H as [? ?]
    end.

(** ** Comparisons, [max] and [min] *)

Section Comparisons.
Implicit Types x y : Q.

Lemma ltb_lt x y : ltb x y = true <-> x < y.
Proof.
  unfold ltb. rewrite negb_true_iff, <- not_true_iff_false, Qle_bool_iff.
  split; [apply Qnot_le_lt | apply Qlt_not_le].
Qed.

Lemma ltb_ge x y : ltb x y = false <-> y <= x.
Proof. unfold ltb. rewrite negb_false_iff. apply Qle_bool_iff. Qed.

Lemma leb_le x y : leb x y = true <-> x <= y.
Proof. apply Qle_bool_iff. Qed.

Lemma leb_gt x y : leb x y = false <-> y < x.
Proof.
  unfold leb. rewrite <- not_true_iff_false, Qle_bool_iff.
  split; [apply Qnot_le_lt | apply Qlt_not_le].
Qed.

Lemma gtb_gt x y : gtb x y = true <-> y < x.
Proof. apply ltb_lt. Qed.

Lemma gtb_le x y : gtb x y = false <-> x <= y.
Proof. apply ltb_ge. Qed.

Lemma geb_ge x y : geb x y = true <-> y <= x.
Proof. apply leb_le. Qed.

Lemma geb_lt x y : geb x y = false <-> x < y.
Proof. apply leb_gt. Qed.

Lemma max_Qmax x y : Py.max x y == Qmax x y.
Proof.
  unfold Py.max. destruct (gtb y x) eqn:E.
  - apply gtb_gt in E. symmetry. apply Q.max_r. now apply Qlt_le_weak.
  - apply gtb_le in E. symmetry. now apply Q.max_l.
Qed.

Lemma min_Qmin x y : Py.min x y == Qmin x y.
Proof.
  unfold Py.min. destruct (ltb y x) eqn:E.
  - apply ltb_lt in E. symmetry. apply Q.min_r. now apply Qlt_le_weak.
  - apply ltb_ge in E. symmetry. now apply Q.min_l.
Qed.

Lemma clamp_Qmax_Qmin lo hi x :
  Py.max lo (Py.min hi x) == Qmax lo (Qmin hi x).
Proof.
  rewrite max_Qmax. apply Q.max_compat; [reflexivity | apply min_Qmin].
Qed.

Lemma clamp_bounds lo hi x :
  lo <= hi -> lo <= Py.max lo (Py.min hi x) <= hi.
Proof.
  intros Hlh. rewrite clamp_Qmax_Qmin. split.
  - apply Q.le_max_l.
  - apply Q.max_lub; [exact Hlh | apply Q.le_min_l].
Qed.
End Comparisons.

Ltac case_cmp :=
  repeat match goal with
    | |- context [gtb ?a ?b] =>
        let E := fresh "E" in
        destruct (gtb a b) eqn:E;
        [apply gtb_gt in E | apply gtb_le in E]
    | |- context [ltb ?a ?b] =>
        let E := fresh "E" in
        destruct (ltb a b) eqn:E;
        [apply ltb_lt in E | apply ltb_ge in E]
    | |- context [geb ?a ?b] =>
        let E := fresh "E" in
        destruct (geb a b) eqn:E;
        [apply geb_ge in E | apply geb_lt in E]
    end.

(** ** Comparisons with a float *)

Section FloatComparisons.

Lemma fgtb_above x y : fgtb x y = true <-> above x y.
Proof. destruct x; cbn; [apply gtb_gt | tauto | |]; split; easy. Qed.

Lemma fgtb_not_above x y : fgtb x y = false <-> ~ above x y.
Proof.
  rewrite <- fgtb_above. destruct (fgtb x y); split; congruence.
Qed.

Lemma fltb_below x y : fltb x y = true <-> below x y.
Proof. destruct x; cbn; [apply ltb_lt | | tauto |]; split; easy. Qed.

Lemma fltb_not_below x y : fltb x y = false <-> ~ below x y.
Proof.
  rewrite <- fltb_below. destruct (fltb x y); split; congruence.
Qed.

Lemma fleb_at_most x y : fleb x y = true <-> at_most x y.
Proof. destruct x; cbn; [apply leb_le | | tauto |]; split; easy. Qed.

Lemma fleb_not_at_most x y : fleb x y = false <-> ~ at_most x y.
Proof.
  rewrite <- fleb_at_most. destruct (fleb x y); split; congruence.
Qed.

(** Being above a number is inherited by every smaller number. *)
Lemma above_weaken x y y' : y' <= y -> above x y -> above x y'.
Proof. destruct x; cbn; intros; try tauto; lra. Qed.

End FloatComparisons.

Ltac case_fcmp :=
  repeat match goal with
    | |- context [fgtb ?a ?b] =>
        let E := fresh "E" in
        destruct (fgtb a b) eqn:E;
        [apply fgtb_above in E | apply fgtb_not_above in E]
    end.

(** ** Integer-valued scores and rounding *)

Section Integral.

Lemma integral_inject k : integral (inject_Z k).
Proof. now exists k. Qed.

Lemma integral_eq q q' : q == q' -> integral q -> integral q'.
Proof. intros E [k Hk]. exists k. now rewrite <- E. Qed.

Lemma integral_minus q q' : integral q -> integral q' -> integral (q - q').
Proof.
  intros [k Hk] [k' Hk']. exists (k + - k')%Z.
  rewrite Hk, Hk'. unfold Qminus. now rewrite inject_Z_plus, inject_Z_opp.
Qed.

Lemma integral_mult q q' : integral q -> integral q' -> integral (q * q').
Proof.
  intros [k Hk] [k' Hk']. exists (k * k')%Z.
  rewrite Hk, Hk'. now rewrite inject_Z_mult.
Qed.

Lemma integral_max q q' :
  integral q -> integral q' -> integral (Py.max q q').
Proof. intros H H'. unfold Py.max. now destruct (gtb q' q). Qed.

Lemma integral_min q q' :
  integral q -> integral q' -> integral (Py.min q q').
Proof. intros H H'. unfold Py.min. now destruct (ltb q' q). Qed.

Lemma round_half_even_integral q k :
  q == inject_Z k -> round_half_even q = k.
Proof.
  destruct q as [n d]. unfold Qeq, round_half_even. simpl. intros E.
  rewrite Z.mul_1_r in E. subst n.
  rewrite Z.div_mul, Z.mod_mul by discriminate.
  simpl. now destruct d.
Qed.

Lemma round_integral q ndigits : integral q -> Py.round q ndigits == q.
Proof.
  intros [k Hk]. unfold Py.round.
  set (p := (10 ^ Z.of_nat ndigits)%Z).
  assert (Hp : ~ inject_Z p == 0).
  { unfold Qeq. simpl. subst p. rewrite Z.mul_1_r.
    apply Z.pow_nonzero; lia. }
  rewrite (round_half_even_integral (q * inject_Z p) (k * p)).
  - rewrite inject_Z_mult, Hk. now apply Qdiv_mult_l.
  - now rewrite Hk, inject_Z_mult.
Qed.
End Integral.

(** ** The trust score *)

Section Penalties.

Lemma drift_penalty_cases severity :
  _calculate_drift_penalty severity =
  if decide (severity = "low") then 5
  else if decide (severity = "moderate") then 15
  else if decide (severity = "high") then 30
  else 0.
Proof.
  unfold _calculate_drift_penalty.
  rewrite !lookup_insert, lookup_empty.
  repeat case_decide; subst; try congruence; reflexivity.
Qed.

Lemma drift_penalty_integral severity :
  integral (_calculate_drift_penalty severity).
Proof.
  rewrite drift_penalty_cases.
  repeat case_decide; apply integral_inject.
Qed.

Lemma accuracy_penalty_integral drop :
  integral (_calculate_accuracy_penalty drop).
Proof.
  unfold _calculate_accuracy_penalty.
  repeat match goal with |- context [ltb ?a ?b] => destruct (ltb a b) end;
    apply integral_inject.
Qed.

Lemma bias_penalty_value s :
  _get_bias_score s * w_bias_penalty (weights thresholds) == 3.
Proof. vm_compute. reflexivity. Qed.

Lemma clamped_score_integral severity drop overrides s :
  integral (trust_score_of severity drop (_get_bias_score s) overrides).
Proof.
  unfold trust_score_of.
  apply integral_max; [apply (integral_inject 0) |].
  apply integral_min; [apply (integral_inject 100) |].
  repeat apply integral_minus.
  - apply (integral_inject 100).
  - apply drift_penalty_integral.
  - apply accuracy_penalty_integral.
  - apply (integral_eq 3); [symmetry; apply bias_penalty_value |].
    apply (integral_inject 3).
  - apply integral_mult;
      [apply integral_inject | apply (integral_inject 10)].
Qed.

End Penalties.

Section TrustScore.

Lemma inr_pair_inj {E A B : Type} (a a' : A) (b b' : B) :
  @inr E (A * B) (a, b) = inr (a', b') -> a = a' /\ b = b'.
Proof. intros H. inversion H. split; reflexivity. Qed.

(** What a run of the body of [calculate_trust_score] that does not
    raise puts in the result. *)
Lemma body_success now s s' r :
  calculate_trust_score_body now s = inr (s', r) ->
  let drift_severity := _get_drift_severity s in
  let accuracy_drop_ := _get_accuracy_drop s in
  let trust_score :=
    trust_score_of drift_severity accuracy_drop_ (_get_bias_score s)
      (_get_recent_overrides now s) in
  tr_trust_score r = Py.round trust_score 2
  /\ tr_autonomy_level r = _determine_autonomy_level trust_score
  /\ tr_alerts_triggered r
     = Some (_check_alerts drift_severity accuracy_drop_ trust_score)
  /\ tr_governance_action r
     = _determine_governance_action trust_score
         (_check_alerts drift_severity accuracy_drop_ trust_score)
  /\ (exists rf, tr_risk_factors r = Some rf
      /\ rf_bias_score rf
         = Py.round (_get_bias_score s
                     * w_bias_penalty (weights thresholds)) 2)
  /\ tr_error r = None.
Proof.
  unfold calculate_trust_score_body, trust_score_of. cbv zeta.
  match goal with
  | |- context [insert_one ?d ?c] =>
      destruct (insert_one d c) as [e | scores']
  end.
  - intros H. inversion H.
  - intros H. apply inr_pair_inj in H as [_ Hr]. subst r.
    cbn [tr_trust_score tr_autonomy_level tr_alerts_triggered
         tr_governance_action tr_risk_factors tr_error].
    do 4 (split; [reflexivity |]). split; [| reflexivity].
    eexists. split; reflexivity.
Qed.

(** The body raises exactly when the insertion of the result does. *)
Lemma body_raises now s e :
  calculate_trust_score_body now s = inl e <-> trust_scores s = Down e.
Proof.
  unfold calculate_trust_score_body. cbv zeta.
  destruct (trust_scores s) as [docs | e0]; cbn [insert_one].
  - split; intros H; inversion H.
  - split; intros H; inversion H; reflexivity.
Qed.

Lemma trust_score_rounded now s s' r :
  calculate_trust_score_body now s = inr (s', r) ->
  tr_trust_score r
  == trust_score_of (_get_drift_severity s) (_get_accuracy_drop s)
       (_get_bias_score s) (_get_recent_overrides now s).
Proof.
  intros H. destruct (body_success _ _ _ _ H) as (-> & _).
  apply round_integral, clamped_score_integral.
Qed.

End TrustScore.

Section TrustScoreClaims.
Import Fixtures.

(** C1. For every drift severity, accuracy drop, bias score and override
    count, the score of lines 90-97 is [100] minus the four penalties
    clamped to [[0,100]] (also when the penalties exceed 100), and the
    [trust_score] entry of every result that [calculate_trust_score]
    computes is that score for the values it read. *)
Theorem trust_score_formula_clamped :
  (forall (drift_severity : string) (accuracy_drop_ bias_score : Q)
          (manual_overrides : Z),
      let trust :=
        100 - _calculate_drift_penalty drift_severity
        - _calculate_accuracy_penalty accuracy_drop_
        - bias_score * 20 - inject_Z manual_overrides * 10 in
      let trust_score :=
        trust_score_of drift_severity accuracy_drop_ bias_score
          manual_overrides in
      trust_score == Qmax 0 (Qmin 100 trust)
      /\ 0 <= trust_score <= 100)
  /\ (forall (now : Z) (s s' : db) (r : trust_result),
         calculate_trust_score_body now s = inr (s', r) ->
         let trust_score :=
           trust_score_of (_get_drift_severity s) (_get_accuracy_drop s)
             (_get_bias_score s) (_get_recent_overrides now s) in
         tr_trust_score r == trust_score
         /\ 0 <= tr_trust_score r <= 100).
Proof.
  split.
  - intros. subst trust trust_score. unfold trust_score_of. split.
    + apply clamp_Qmax_Qmin.
    + apply clamp_bounds. discriminate.
  - intros now s s' r H trust_score.
    pose proof (trust_score_rounded _ _ _ _ H) as E.
    split; [exact E |]. rewrite E. apply clamp_bounds. discriminate.
Qed.

Lemma trust_score_formula_clamped_witness :
  exists s' r,
    calculate_trust_score_body 1000 empty_db = inr (s', r)
    /\ tr_trust_score r == 92.
Proof.
  eexists. eexists. split.
  - vm_compute. reflexivity.
  - etransitivity.
    + refine (proj1 (proj2 trust_score_formula_clamped
                       1000%Z empty_db _ _ _)).
      vm_compute. reflexivity.
    + vm_compute. reflexivity.
Defined.

(** C2. [_determine_autonomy_level] splits the scores at 80, 60 and 40;
    the label it gives to a score of at least 60 and below 80 (60 itself
    included) is ["human-on-loop"], which is not the ["human_on_loop"]
    the other labels and the threshold table go by. *)
Theorem autonomy_level_thresholds (trust_score : Q) :
  (80 <= trust_score ->
     _determine_autonomy_level trust_score = "fully_autonomous")
  /\ (60 <= trust_score -> trust_score < 80 ->
        _determine_autonomy_level trust_score = "human-on-loop")
  /\ (40 <= trust_score -> trust_score < 60 ->
        _determine_autonomy_level trust_score = "approval_required")
  /\ (trust_score < 40 ->
        _determine_autonomy_level trust_score = "kill_switch")
  /\ _determine_autonomy_level 60 <> "human_on_loop".
Proof.
  unfold _determine_autonomy_level. cbv zeta.
  change (autonomous (trust_levels thresholds)) with 80.
  change (human_on_loop (trust_levels thresholds)) with 60.
  change (approval_required (trust_levels thresholds)) with 40.
  destruct (geb trust_score 80) eqn:E80;
    [apply geb_ge in E80 | apply geb_lt in E80];
    (destruct (geb trust_score 60) eqn:E60;
       [apply geb_ge in E60 | apply geb_lt in E60]);
    (destruct (geb trust_score 40) eqn:E40;
       [apply geb_ge in E40 | apply geb_lt in E40]);
    repeat split; intros;
    try reflexivity; try discriminate; exfalso; lra.
Qed.

Lemma autonomy_level_thresholds_witness :
  _determine_autonomy_level 60 = "human-on-loop".
Proof.
  apply (proj1 (proj2 (autonomy_level_thresholds 60)));
    vm_compute; [discriminate | reflexivity].
Defined.

End TrustScoreClaims.

Section Alerts.

(** The alerts of [_check_alerts], one by one. *)
Lemma check_alerts_elem drift_severity accuracy_drop_ trust_score x :
  (x ∈ _check_alerts drift_severity accuracy_drop_ trust_score) <->
  (x = "critical_drift" /\ drift_severity = "high")
  \/ (x = "moderate_drift" /\ drift_severity = "moderate")
  \/ (x = "critical_accuracy_drop" /\ 0.10 < accuracy_drop_)
  \/ (x = "accuracy_degradation"
      /\ 0.05 < accuracy_drop_ /\ accuracy_drop_ <= 0.10)
  \/ (x = "low_trust_score" /\ trust_score < 40)
  \/ (x = "very_low_trust_score"
      /\ 40 <= trust_score /\ trust_score < 60).
Proof.
  unfold _check_alerts. cbv zeta.
  change (critical (accuracy_drop thresholds)) with 0.10.
  change (concerning (accuracy_drop thresholds)) with 0.05.
  change (human_on_loop (trust_levels thresholds)) with 60.
  change (approval_required (trust_levels thresholds)) with 40.
  repeat case_decide; case_cmp; cbn [app];
    rewrite ?elem_of_cons, ?elem_of_nil;
    (split; intros Hx);
    repeat match goal with
      | H : _ \/ _ |- _ => destruct H as [H | H]
      | H : _ /\ _ |- _ => destruct H as [? ?]
      | H : False |- _ => destruct H
      end;
    subst; try congruence; try (exfalso; lra);
    tauto.
Qed.

Lemma critical_drift_alert drift_severity accuracy_drop_ trust_score :
  ("critical_drift"
     ∈ _check_alerts drift_severity accuracy_drop_ trust_score)
  <-> drift_severity = "high".
Proof.
  rewrite check_alerts_elem. split.
  - intros H. split_cases; congruence.
  - intros ->. left. split; reflexivity.
Qed.

Lemma critical_accuracy_alert drift_severity accuracy_drop_ trust_score :
  ("critical_accuracy_drop"
     ∈ _check_alerts drift_severity accuracy_drop_ trust_score)
  <-> 0.10 < accuracy_drop_.
Proof.
  rewrite check_alerts_elem. split.
  - intros H. split_cases; congruence.
  - intros H. right. right. left. split; [reflexivity | exact H].
Qed.

(** The action computed from the alerts, by cases on what was read. *)
Lemma governance_action_cases drift_severity accuracy_drop_ trust_score :
  let action :=
    _determine_governance_action trust_score
      (_check_alerts drift_severity accuracy_drop_ trust_score) in
  let critical_ := drift_severity = "high" \/ 0.10 < accuracy_drop_ in
  (critical_ -> action = "kill_switch")
  /\ (~ critical_ -> trust_score < 40 -> action = "require_approval")
  /\ (~ critical_ -> 40 <= trust_score -> trust_score < 60 ->
        action = "human_review")
  /\ (~ critical_ -> 60 <= trust_score -> action = "none").
Proof.
  intros action critical_. subst action critical_.
  unfold _determine_governance_action.
  change (human_on_loop (trust_levels thresholds)) with 60.
  change (approval_required (trust_levels thresholds)) with 40.
  repeat case_bool_decide; cbn [orb];
    repeat match goal with
      | H : _ ∈ _check_alerts _ _ _ |- _ =>
          first [ apply critical_drift_alert in H
                | apply critical_accuracy_alert in H ]
      | H : ~ _ ∈ _check_alerts _ _ _ |- _ =>
          first [ rewrite critical_drift_alert in H
                | rewrite critical_accuracy_alert in H ]
      end;
    case_cmp; repeat split; intros;
    try reflexivity; try tauto; exfalso; lra.
Qed.

End Alerts.

Section GovernanceClaims.
Import Fixtures.

(** C10. [_check_alerts] labels a trust score strictly below 40
    ["low_trust_score"], a score of at least 40 and strictly below 60
    ["very_low_trust_score"], and gives a score of 60 or more neither
    label. *)
Theorem trust_score_alert_labels
    (drift_severity : string) (accuracy_drop_ trust_score : Q) :
  let alerts := _check_alerts drift_severity accuracy_drop_ trust_score in
  (("low_trust_score" ∈ alerts) <-> trust_score < 40)
  /\ (("very_low_trust_score" ∈ alerts)
      <-> 40 <= trust_score /\ trust_score < 60)
  /\ (60 <= trust_score ->
        ("low_trust_score" ∉ alerts) /\ ("very_low_trust_score" ∉ alerts)).
Proof.
  intros alerts. subst alerts. unfold not. rewrite !check_alerts_elem.
  split; [| split; [| intros Hge; split]].
  - split; intros Hx.
    + split_cases; first [congruence | assumption].
    + do 4 right. left. split; [reflexivity | exact Hx].
  - split; intros Hx.
    + split_cases; first [congruence | split; assumption].
    + do 5 right. split; [reflexivity | exact Hx].
  - intros Hx. split_cases; first [congruence | lra].
  - intros Hx. split_cases; first [congruence | lra].
Qed.

Lemma trust_score_alert_labels_witness :
  ("low_trust_score" ∉ _check_alerts "low" 0 92)
  /\ ("very_low_trust_score" ∉ _check_alerts "low" 0 92).
Proof.
  apply (proj2 (proj2 (trust_score_alert_labels "low" 0 92))).
  vm_compute. discriminate.
Defined.

(** C4. In every result that [calculate_trust_score] computes, the
    governance action is ["kill_switch"] when the drift severity read is
    ["high"] or the accuracy drop read exceeds 0.10, which is when a
    [critical_drift] or [critical_accuracy_drop] alert is in the result;
    otherwise it is ["require_approval"] for a trust score below 40,
    ["human_review"] for one below 60 and ["none"] from 60 on. *)
Theorem governance_action_thresholds
    (now : Z) (s s' : db) (r : trust_result) :
  calculate_trust_score_body now s = inr (s', r) ->
  let action := tr_governance_action r in
  let trust_score := tr_trust_score r in
  let critical_ :=
    _get_drift_severity s = "high" \/ 0.10 < _get_accuracy_drop s in
  (critical_ -> action = "kill_switch")
  /\ (~ critical_ -> trust_score < 40 -> action = "require_approval")
  /\ (~ critical_ -> 40 <= trust_score -> trust_score < 60 ->
        action = "human_review")
  /\ (~ critical_ -> 60 <= trust_score -> action = "none")
  /\ (critical_ <->
      exists alerts, tr_alerts_triggered r = Some alerts
        /\ ("critical_drift" ∈ alerts
            \/ "critical_accuracy_drop" ∈ alerts)).
Proof.
  intros H action trust_score critical_.
  pose proof (trust_score_rounded _ _ _ _ H) as E.
  destruct (body_success _ _ _ _ H) as (_ & _ & Hal & Hact & _).
  subst action trust_score critical_. rewrite Hact, Hal.
  set (ts := trust_score_of _ _ _ _) in *.
  destruct (governance_action_cases (_get_drift_severity s)
              (_get_accuracy_drop s) ts) as (K & RA & HR & N).
  split; [exact K |].
  split; [intros; apply RA; [assumption | lra] |].
  split; [intros; apply HR; [assumption | lra | lra] |].
  split; [intros; apply N; [assumption | lra] |].
  split.
  - intros C. eexists. split; [reflexivity |].
    rewrite critical_drift_alert, critical_accuracy_alert. exact C.
  - intros (alerts & [= <-] & C).
    rewrite critical_drift_alert, critical_accuracy_alert in C. exact C.
Qed.

Lemma governance_action_thresholds_witness :
  exists s' r,
    calculate_trust_score_body 1000 high_drift_db = inr (s', r)
    /\ tr_governance_action r = "kill_switch".
Proof.
  eexists. eexists. split.
  - vm_compute. reflexivity.
  - refine (proj1 (governance_action_thresholds
                     1000%Z high_drift_db _ _ _) _).
    + vm_compute. reflexivity.
    + left. vm_compute. reflexivity.
Defined.

End GovernanceClaims.

Section DegradedAndBias.
Import Fixtures.

(** C6, as stated, fails: with the drift logs unreachable an exception is
    raised while the score is computed, and the result is not the degraded
    one: the getter swallows the exception and the call returns a score
    that is not 0, the level ["fully_autonomous"], the action ["none"] and
    no [error]. *)
Lemma swallowed_exception_not_degraded :
  find_one_latest dl_timestamp (drift_logs drift_down_db)
  = inl (PyMongoError "connection refused")
  /\ ~ tr_trust_score (calculate_trust_score 1000 drift_down_db).2 == 0
  /\ tr_autonomy_level (calculate_trust_score 1000 drift_down_db).2
     = "fully_autonomous"
  /\ tr_governance_action (calculate_trust_score 1000 drift_down_db).2
     = "none"
  /\ tr_error (calculate_trust_score 1000 drift_down_db).2 = None.
Proof. vm_compute. repeat split. discriminate. Qed.

(** C6, amended. [calculate_trust_score] never propagates an exception,
    and what it returns depends on where the exception is raised.  One
    raised while a signal is read is swallowed by the getter, which falls
    back to severity ["low"], drop 0.0 or count 0, and the score is
    computed from that.  The body itself raises exactly when the insertion
    into the trust scores does; then the store is left as it was and the
    degraded result is returned, with trust score 0, level
    ["kill_switch"], action ["kill_switch"] and the exception's text under
    [error].  With the trust scores reachable the result is never the
    degraded one. *)
Theorem calculate_trust_score_exceptions (now : Z) (s : db) :
  ((forall e, find_one_latest dl_timestamp (drift_logs s) = inl e ->
      _get_drift_severity s = "low")
   /\ (forall e, find_one_latest pl_timestamp (performance_logs s) = inl e ->
         _get_accuracy_drop s = 0.0)
   /\ (forall e, governance_logs s = Down e ->
         _get_recent_overrides now s = 0%Z))
  /\ (forall e,
         calculate_trust_score_body now s = inl e
         <-> trust_scores s = Down e)
  /\ (forall e,
         calculate_trust_score_body now s = inl e ->
         let '(s', r) := calculate_trust_score now s in
         s' = s
         /\ tr_trust_score r = 0
         /\ tr_autonomy_level r = "kill_switch"
         /\ tr_governance_action r = "kill_switch"
         /\ tr_error r = Some (str e))
  /\ (forall docs,
         trust_scores s = Up docs ->
         exists s' r,
           calculate_trust_score_body now s = inr (s', r)
           /\ calculate_trust_score now s = (s', r)
           /\ tr_error r = None).
Proof.
  split; [split; [| split] | split; [| split]].
  - intros e H. unfold _get_drift_severity. now rewrite H.
  - intros e H. unfold _get_accuracy_drop. cbv zeta. now rewrite H.
  - intros e H. unfold _get_recent_overrides. cbv zeta. now rewrite H.
  - intros e. apply body_raises.
  - intros e H. unfold calculate_trust_score. rewrite H.
    repeat split; reflexivity.
  - intros docs Hdocs.
    destruct (calculate_trust_score_body now s) as [e | [s' r]] eqn:Hbody.
    + apply body_raises in Hbody. congruence.
    + exists s', r. split; [reflexivity |].
      split; [unfold calculate_trust_score; now rewrite Hbody |].
      now destruct (body_success _ _ _ _ Hbody) as (_ & _ & _ & _ & _ & ?).
Qed.

Lemma calculate_trust_score_exceptions_witness :
  (let '(s', r) := calculate_trust_score 1000 scores_down_db in
   s' = scores_down_db
   /\ tr_trust_score r = 0
   /\ tr_autonomy_level r = "kill_switch"
   /\ tr_governance_action r = "kill_switch"
   /\ tr_error r = Some "connection refused")
  /\ _get_drift_severity drift_down_db = "low".
Proof.
  split.
  - apply (proj1 (proj2 (proj2
             (calculate_trust_score_exceptions 1000 scores_down_db)))
             (PyMongoError "connection refused")).
    vm_compute. reflexivity.
  - apply (proj1 (proj1 (calculate_trust_score_exceptions 1000 drift_down_db))
             (PyMongoError "connection refused")).
    reflexivity.
Defined.

(** C7. [_get_bias_score] is 0.15 whatever the store holds, and in every
    result that [calculate_trust_score] computes the bias penalty, as
    computed and as reported under [risk_factors], is 0.15 * 20 = 3. *)
Theorem bias_penalty_constant :
  (forall s : db, _get_bias_score s = 0.15)
  /\ (forall (now : Z) (s s' : db) (r : trust_result),
         calculate_trust_score_body now s = inr (s', r) ->
         _get_bias_score s * w_bias_penalty (weights thresholds) == 3
         /\ exists rf, tr_risk_factors r = Some rf
                       /\ rf_bias_score rf == 3).
Proof.
  split; [reflexivity |].
  intros now s s' r H. split; [apply bias_penalty_value |].
  destruct (body_success _ _ _ _ H) as (_ & _ & _ & _ & (rf & Hrf & Hb) & _).
  exists rf. split; [exact Hrf |]. rewrite Hb.
  rewrite round_integral.
  - apply bias_penalty_value.
  - apply (integral_eq 3); [symmetry; apply bias_penalty_value |].
    apply (integral_inject 3).
Qed.

Lemma bias_penalty_constant_witness :
  exists rf,
    tr_risk_factors (calculate_trust_score 1000 high_drift_db).2 = Some rf
    /\ rf_bias_score rf == 3.
Proof.
  refine (proj2 (proj2 bias_penalty_constant 1000%Z high_drift_db
                   (calculate_trust_score 1000 high_drift_db).1
                   (calculate_trust_score 1000 high_drift_db).2 _)).
  vm_compute. reflexivity.
Defined.

End DegradedAndBias.

(** ** Incidents *)

Section UpdateOne.
Context {D : Type} `{EqDecision D}.
Variables (filter : D -> bool) (upd : D -> D).

Lemma update_first_none (l : list D) :
  Forall (fun x => filter x = false) l ->
  update_first filter upd l = (l, 0%Z).
Proof.
  induction 1 as [| x l Hx _ IH]; cbn [update_first].
  - reflexivity.
  - now rewrite Hx, IH.
Qed.

Lemma update_first_split (l1 l2 : list D) (d : D) :
  Forall (fun x => filter x = false) l1 ->
  filter d = true ->
  update_first filter upd (l1 ++ d :: l2)
  = (l1 ++ upd d :: l2, if decide (upd d = d) then 0%Z else 1%Z).
Proof.
  intros Hl1 Hd. induction Hl1 as [| x l1 Hx _ IH]; cbn.
  - now rewrite Hd.
  - now rewrite Hx, IH.
Qed.

End UpdateOne.

Section ResolveIncident.
Import Fixtures.
Variable isoformat : Z -> string.
Variable py_str : value -> string.

Lemma with_incidents_same (s : db) : with_incidents s (incidents s) = s.
Proof. now destruct s. Qed.

(** Whatever [resolve_incident] returns, the store it leaves differs from
    the one it found in the incidents at most. *)
Lemma resolve_incident_store now incident_id notes s :
  exists c,
    (resolve_incident isoformat py_str now incident_id notes s).1
    = with_incidents s c
    /\ match update_one (has_incident_id incident_id)
               (set_resolved now notes) (incidents s) with
       | inr (c', _) => c = c'
       | inl _ => c = incidents s
       end.
Proof.
  unfold resolve_incident.
  destruct (update_one _ _ (incidents s)) as [e | [c n]].
  - exists (incidents s). now rewrite with_incidents_same.
  - exists c. split; [| reflexivity].
    repeat match goal with
      | |- context [match ?x with _ => _ end] => destruct x
      end; reflexivity.
Qed.

(** One call: when the store holds an incident with the given id,
    [resolve_incident] replaces the first such incident by itself with
    [status], [resolved_at] and [resolution_notes] set, every other field
    of it as before, and leaves every other incident and every other
    collection as they were; when no incident has the id, the store is
    unchanged and the result is the error ["Incident not found"]. *)
Lemma resolve_incident_single_call
    (now : Z) (incident_id notes : string) (s : db) :
  (forall l1 d l2,
      incidents s = Up (l1 ++ d :: l2) ->
      Forall (fun x => has_incident_id incident_id x = false) l1 ->
      has_incident_id incident_id d = true ->
      exists d',
        (resolve_incident isoformat py_str now incident_id notes s).1
        = with_incidents s (Up (l1 ++ d' :: l2))
        /\ d' !! "status" = Some (VStr "resolved")
        /\ d' !! "resolved_at" = Some (VDatetime now)
        /\ d' !! "resolution_notes" = Some (VStr notes)
        /\ forall k, k <> "status" -> k <> "resolved_at" ->
                     k <> "resolution_notes" -> d' !! k = d !! k)
  /\ (forall l,
         incidents s = Up l ->
         Forall (fun x => has_incident_id incident_id x = false) l ->
         resolve_incident isoformat py_str now incident_id notes s
         = (s, error_result "Incident not found")).
Proof.
  split.
  - intros l1 d l2 Hs Hl1 Hd.
    exists (set_resolved now notes d).
    destruct (resolve_incident_store now incident_id notes s)
      as (c & -> & Hc).
    rewrite Hs in Hc. cbn [update_one] in Hc.
    rewrite (update_first_split _ _ _ _ _ Hl1 Hd) in Hc. subst c.
    split; [reflexivity |]. unfold set_resolved.
    split; [by simplify_map_eq |].
    split; [by simplify_map_eq |].
    split; [by simplify_map_eq |].
    intros k K1 K2 K3. by rewrite !lookup_insert_ne.
  - intros l Hs Hl. unfold resolve_incident.
    rewrite Hs. cbn [update_one].
    rewrite (update_first_none _ _ _ Hl). cbn.
    rewrite <- Hs. now rewrite with_incidents_same.
Qed.

End ResolveIncident.

(** ** Drift severity *)

Section DriftSeverity.
Import Fixtures DriftDetector.

(** The severity the trust engine derives from the latest drift log. *)
Lemma get_drift_severity_latest (s : db) (d : drift_log) :
  find_one_latest dl_timestamp (drift_logs s) = inr (Some d) ->
  _get_drift_severity s
  = let psi_score := default (Num 0) (dl_psi_score d) in
    if fgtb psi_score 0.3 then "high"
    else if fgtb psi_score 0.2 then "moderate" else "low".
Proof. intros H. unfold _get_drift_severity. now rewrite H. Qed.

(** C5, as stated, fails: a check with PSI 0.25 and no KS drift stores
    ["high"], and the trust engine reads ["moderate"] off the same
    record when it is the latest drift log. *)
Lemma drift_severity_cutoffs_differ :
  find_one_latest dl_timestamp psi_quarter_check.1
  = inr (Some psi_quarter_check.2)
  /\ dl_severity psi_quarter_check.2 = "high"
  /\ _get_drift_severity (with_drift_logs empty_db psi_quarter_check.1)
     = "moderate"
  /\ dl_severity psi_quarter_check.2
     <> _get_drift_severity (with_drift_logs empty_db psi_quarter_check.1).
Proof. vm_compute. repeat split; discriminate. Qed.

Variable ks_2samp : list Q -> list Q -> exn + (pyfloat * pyfloat).
Variable calculate_psi : list Q -> list Q -> pyfloat.

(** The severity [check_drift] stores, from the outcome of the two
    tests. *)
Lemma check_drift_severity now feature training current alpha logs :
  dl_severity
    (check_drift ks_2samp calculate_psi now feature training current alpha
       logs).2
  = (let psi := calculate_psi training current in
     let dd := (ks_test ks_2samp training current alpha).1.1 in
     let ks := (ks_test ks_2samp training current alpha).1.2 in
     if fgtb psi 0.2 || (dd && fgtb ks 0.3) then "high"
     else if fgtb psi 0.1 || dd then "moderate" else "low")
  /\ dl_psi_score
       (check_drift ks_2samp calculate_psi now feature training current
          alpha logs).2
     = Some (calculate_psi training current).
Proof.
  unfold check_drift.
  destruct (ks_test ks_2samp training current alpha) as [[dd ks] p].
  cbv zeta. destruct (insert_one _ logs); split; reflexivity.
Qed.

(** C5, amended. Drift severity is classified by two sets of cutoffs.
    [check_drift] stores ["high"] when the PSI is above 0.2 or the KS test
    detected drift with a statistic above 0.3, otherwise ["moderate"] when
    the PSI is above 0.1 or the KS test detected drift, otherwise ["low"].
    Once the record is the latest drift log, [_get_drift_severity] derives
    ["high"] from a PSI above 0.3, ["moderate"] from one above 0.2 and not
    above 0.3, and ["low"] otherwise.  The derived severity is never more
    severe than the stored one, and the two are equal exactly when the PSI
    is above 0.3, or is not above 0.1 (a NaN PSI is not) with no drift
    detected by the KS test. *)
Theorem drift_severity_two_cutoffs
    (now : Z) (feature_name : string) (training_data current_data : list Q)
    (alpha : Q) (logs : coll drift_log) (s : db) :
  let r :=
    (check_drift ks_2samp calculate_psi now feature_name training_data
       current_data alpha logs).2 in
  let psi_score := calculate_psi training_data current_data in
  let drift_detected :=
    (ks_test ks_2samp training_data current_data alpha).1.1 in
  let ks_stat :=
    (ks_test ks_2samp training_data current_data alpha).1.2 in
  let stored_high :=
    above psi_score 0.2 \/ (drift_detected = true /\ above ks_stat 0.3) in
  ((dl_severity r = "high" <-> stored_high)
   /\ (dl_severity r = "moderate"
       <-> ~ stored_high /\ (above psi_score 0.1 \/ drift_detected = true))
   /\ (dl_severity r = "low"
       <-> ~ above psi_score 0.1 /\ drift_detected = false))
  /\ (find_one_latest dl_timestamp (drift_logs s) = inr (Some r) ->
      (_get_drift_severity s = "high" <-> above psi_score 0.3)
      /\ (_get_drift_severity s = "moderate"
          <-> above psi_score 0.2 /\ ~ above psi_score 0.3)
      /\ (_get_drift_severity s = "low" <-> ~ above psi_score 0.2)
      /\ (severity_rank (_get_drift_severity s)
          <= severity_rank (dl_severity r))%nat
      /\ (_get_drift_severity s = dl_severity r
          <-> above psi_score 0.3
              \/ (~ above psi_score 0.1 /\ drift_detected = false))).
Proof.
  intros r psi_score drift_detected ks_stat stored_high.
  destruct (check_drift_severity now feature_name training_data current_data
              alpha logs) as [Hsev Hpsi].
  fold r in Hsev, Hpsi. cbv zeta in Hsev.
  fold psi_score drift_detected ks_stat in Hsev, Hpsi.
  assert (W32 : above psi_score 0.3 -> above psi_score 0.2)
    by (apply above_weaken; discriminate).
  assert (W21 : above psi_score 0.2 -> above psi_score 0.1)
    by (apply above_weaken; discriminate).
  split.
  - rewrite Hsev. subst stored_high. clear Hsev Hpsi.
    case_fcmp; destruct drift_detected; cbn [orb andb];
      repeat split; intros; split_cases;
      try discriminate; try reflexivity; try congruence; try tauto;
      try (right; split; [reflexivity | assumption]);
      try (unfold not; intros; split_cases; first [tauto | congruence]).
  - intros Hlatest.
    rewrite (get_drift_severity_latest _ _ Hlatest), Hpsi, Hsev.
    cbn [default from_option id]. clear Hsev Hpsi Hlatest.
    case_fcmp; destruct drift_detected; cbn [orb andb];
      repeat split; intros; split_cases;
      try discriminate; try reflexivity; try congruence; try tauto;
      try (vm_compute; lia);
      try (right; split; [assumption | reflexivity]);
      try (unfold not; intros; split_cases; first [tauto | congruence]).
Qed.

End DriftSeverity.

Section DriftSeverityWitness.
Import Fixtures DriftDetector.

Lemma drift_severity_two_cutoffs_witness :
  (severity_rank
     (_get_drift_severity (with_drift_logs empty_db psi_quarter_check.1))
   <= severity_rank (dl_severity psi_quarter_check.2))%nat.
Proof.
  refine (proj1 (proj2 (proj2 (proj2
    (proj2 (drift_severity_two_cutoffs
              (fun _ _ => inr (Num 0.1, Num 1)) (fun _ _ => Num 0.25)
              1000%Z "income" [1; 2; 3] [1; 2; 4] 0.05 (Up [])
              (with_drift_logs empty_db psi_quarter_check.1)) _))))).
  vm_compute. reflexivity.
Defined.

End DriftSeverityWitness.

(** ** Risk category *)

Section RiskCategory.
Import CreditRiskModel.

(** C3. For every approval probability in [[0,1]], the risk category is
    ["Low"] above 0.7, ["Medium"] from 0.3 to 0.7 and ["High"] below 0.3;
    0.75, 0.5 and 0.2 map to ["Low"], ["Medium"] and ["High"]. *)
Theorem risk_category_thresholds (p : Q) :
  0 <= p <= 1 ->
  (0.7 < p -> _map_risk_category p = "Low")
  /\ (0.3 <= p <= 0.7 -> _map_risk_category p = "Medium")
  /\ (p < 0.3 -> _map_risk_category p = "High")
  /\ _map_risk_category 0.75 = "Low"
  /\ _map_risk_category 0.5 = "Medium"
  /\ _map_risk_category 0.2 = "High".
Proof.
  intros _. unfold _map_risk_category at 1 2 3.
  case_cmp; repeat split; intros;
    try reflexivity; exfalso; lra.
Qed.

Lemma risk_category_thresholds_witness :
  _map_risk_category 0.3 = "Medium".
Proof.
  apply (proj1 (proj2 (risk_category_thresholds 0.3 ltac:(lra))));
    lra.
Defined.

End RiskCategory.

(** ** Response quality *)

Section QualityScore.
Import OpenRouterLLMService.

(** C9 fails on the code: for the empty response and for a response of
    blanks only, [calculate_quality_score] raises [IndexError], whatever
    the prompt. *)
Theorem quality_score_blank_response_raises (prompt : string) :
  calculate_quality_score "" prompt
  = inl (IndexError "string index out of range")
  /\ calculate_quality_score "   " prompt
     = inl (IndexError "string index out of range").
Proof. split; reflexivity. Qed.

End QualityScore.

(** * Further properties of the governance code *)

(** ** The trust score under outages and pressure *)

Section TrustScoreBehaviour.

Lemma get_drift_severity_range (s : db) :
  _get_drift_severity s = "low"
  \/ _get_drift_severity s = "moderate"
  \/ _get_drift_severity s = "high".
Proof.
  unfold _get_drift_severity.
  destruct (find_one_latest dl_timestamp (drift_logs s)) as [e | [d |]];
    [| cbv zeta; case_fcmp |]; tauto.
Qed.

Lemma drift_penalty_bounds severity :
  0 <= _calculate_drift_penalty severity <= 30.
Proof.
  rewrite drift_penalty_cases. repeat case_decide; split; discriminate.
Qed.

Lemma accuracy_penalty_bounds drop :
  0 <= _calculate_accuracy_penalty drop <= 25.
Proof.
  unfold _calculate_accuracy_penalty. case_cmp; split; discriminate.
Qed.

Lemma get_recent_overrides_nonneg now s :
  (0 <= _get_recent_overrides now s)%Z.
Proof.
  unfold _get_recent_overrides.
  destruct (governance_logs s) as [docs | e]; cbn [count_documents]; lia.
Qed.

Lemma inject_Z_le_10 n m : (n <= m)%Z -> inject_Z n * 10 <= inject_Z m * 10.
Proof.
  intros H. apply Qmult_le_compat_r; [| discriminate].
  now rewrite <- Zle_Qle.
Qed.

Lemma clamp_le lo hi x b :
  lo <= b -> x <= b -> Qmax lo (Qmin hi x) <= b.
Proof.
  intros Hlo Hx. apply Q.max_lub; [exact Hlo |].
  eapply Qle_trans; [apply Q.le_min_r | exact Hx].
Qed.

(** The score before clamping. *)
Lemma trust_score_of_unfold severity drop bias overrides :
  trust_score_of severity drop bias overrides
  == Qmax 0 (Qmin 100
       (100 - _calculate_drift_penalty severity
        - _calculate_accuracy_penalty drop - bias * 20
        - inject_Z overrides * 10)).
Proof. unfold trust_score_of. apply clamp_Qmax_Qmin. Qed.

(** X1. With the drift, performance and governance collections all
    unreachable and the trust score collection reachable, the signals fall
    back to their benign defaults: the score is 92, the level
    ["fully_autonomous"], no alert, no action. *)
Theorem monitoring_outage_scores_92
    (now : Z) (s : db) (e1 e2 e3 : exn) (docs : list trust_result) :
  drift_logs s = Down e1 ->
  performance_logs s = Down e2 ->
  governance_logs s = Down e3 ->
  trust_scores s = Up docs ->
  let r := (calculate_trust_score now s).2 in
  tr_trust_score r == 92
  /\ tr_autonomy_level r = "fully_autonomous"
  /\ tr_alerts_triggered r = Some []
  /\ tr_governance_action r = "none"
  /\ tr_error r = None.
Proof.
  intros H1 H2 H3 H4. destruct s as [ts gl inc dl pl].
  cbn in H1, H2, H3, H4. subst. vm_compute.
  repeat split; reflexivity.
Qed.

Lemma monitoring_outage_scores_92_witness :
  tr_autonomy_level
    (calculate_trust_score 1000
       {| trust_scores := Up [];
          governance_logs := Down (PyMongoError "timeout");
          incidents := Up [];
          drift_logs := Down (PyMongoError "timeout");
          performance_logs := Down (PyMongoError "timeout") |}).2
  = "fully_autonomous".
Proof.
  refine (proj1 (proj2 (monitoring_outage_scores_92 1000%Z _
                          (PyMongoError "timeout") (PyMongoError "timeout")
                          (PyMongoError "timeout") [] _ _ _ _)));
    reflexivity.
Defined.

(** X2. The trust score of a computed result never exceeds 92, and a
    result whose action is ["kill_switch"] has a score of at most 67, so
    its level is never ["fully_autonomous"]. *)
Theorem trust_score_ceiling (now : Z) (s s' : db) (r : trust_result) :
  calculate_trust_score_body now s = inr (s', r) ->
  tr_trust_score r <= 92
  /\ (tr_governance_action r = "kill_switch" ->
      tr_trust_score r <= 67
      /\ tr_autonomy_level r <> "fully_autonomous").
Proof.
  intros H.
  pose proof (trust_score_rounded _ _ _ _ H) as E.
  destruct (body_success _ _ _ _ H) as (_ & Hlev & _ & Hact & _).
  cbv zeta in Hlev, Hact.
  set (ts := trust_score_of _ _ _ _) in *.
  assert (Hts : ts == Qmax 0 (Qmin 100
            (100 - _calculate_drift_penalty (_get_drift_severity s)
             - _calculate_accuracy_penalty (_get_accuracy_drop s)
             - 0.15 * 20
             - inject_Z (_get_recent_overrides now s) * 10)))
    by apply trust_score_of_unfold.
  pose proof (accuracy_penalty_bounds (_get_accuracy_drop s)) as [Ha _].
  pose proof (inject_Z_le_10 _ _ (get_recent_overrides_nonneg now s)) as Ho.
  change (inject_Z 0 * 10) with 0 in Ho.
  assert (Hd : 5 <= _calculate_drift_penalty (_get_drift_severity s)).
  { destruct (get_drift_severity_range s) as [-> | [-> | ->]];
      vm_compute; discriminate. }
  assert (H92 : ts <= 92).
  { rewrite Hts. apply clamp_le; [discriminate | lra]. }
  split; [rewrite E; exact H92 |].
  rewrite Hact, Hlev. intros Hk.
  destruct (governance_action_cases (_get_drift_severity s)
              (_get_accuracy_drop s) ts) as (_ & RA & HR & N).
  cbv zeta in RA, HR, N.
  assert (Hcrit : _get_drift_severity s = "high"
                  \/ 0.10 < _get_accuracy_drop s).
  { destruct (decide (_get_drift_severity s = "high")) as [| Hnh];
      [now left |].
    destruct (Qlt_le_dec 0.10 (_get_accuracy_drop s)) as [| Hle];
      [now right |].
    exfalso.
    assert (Hnc : ~ (_get_drift_severity s = "high"
                     \/ 0.10 < _get_accuracy_drop s)) by (intros [|]; [tauto | lra]).
    destruct (Qlt_le_dec ts 40) as [L40 | G40].
    { rewrite (RA Hnc L40) in Hk. discriminate. }
    destruct (Qlt_le_dec ts 60) as [L60 | G60].
    { rewrite (HR Hnc G40 L60) in Hk. discriminate. }
    rewrite (N Hnc G60) in Hk. discriminate. }
  assert (H67 : ts <= 67).
  { rewrite Hts. apply clamp_le; [discriminate |].
    destruct Hcrit as [Hh | Hacc].
    - rewrite Hh in *.
      change (_calculate_drift_penalty "high") with 30. lra.
    - assert (_calculate_accuracy_penalty (_get_accuracy_drop s) == 25).
      { unfold _calculate_accuracy_penalty.
        change (acceptable (accuracy_drop thresholds)) with 0.02.
        change (concerning (accuracy_drop thresholds)) with 0.05.
        change (critical (accuracy_drop thresholds)) with 0.10.
        case_cmp; try reflexivity; exfalso; lra. }
      lra. }
  split; [rewrite E; exact H67 |].
  unfold _determine_autonomy_level. cbv zeta.
  change (autonomous (trust_levels thresholds)) with 80.
  case_cmp; [exfalso; lra | | |]; discriminate.
Qed.

Lemma trust_score_ceiling_witness :
  tr_trust_score (calculate_trust_score 1000 Fixtures.high_drift_db).2 <= 92.
Proof.
  refine (proj1 (trust_score_ceiling 1000%Z Fixtures.high_drift_db
                   (calculate_trust_score 1000 Fixtures.high_drift_db).1
                   (calculate_trust_score 1000 Fixtures.high_drift_db).2 _)).
  vm_compute. reflexivity.
Defined.

Lemma accuracy_penalty_monotone drop drop' :
  drop <= drop' ->
  _calculate_accuracy_penalty drop <= _calculate_accuracy_penalty drop'.
Proof.
  intros H. unfold _calculate_accuracy_penalty.
  change (acceptable (accuracy_drop thresholds)) with 0.02.
  change (concerning (accuracy_drop thresholds)) with 0.05.
  change (critical (accuracy_drop thresholds)) with 0.10.
  case_cmp; try discriminate; exfalso; lra.
Qed.

Lemma clamp_monotone lo hi x y :
  x <= y -> Qmax lo (Qmin hi x) <= Qmax lo (Qmin hi y).
Proof.
  intros H. apply Q.max_le_compat_l. now apply Q.min_le_compat_l.
Qed.

(** X3. The score never rises with trouble: for the same drift severity
    and bias score, a larger accuracy drop or more manual overrides give a
    score that is lower or the same. *)
Theorem trust_score_antitone
    (drift_severity : string) (bias_score drop drop' : Q)
    (overrides overrides' : Z) :
  drop <= drop' ->
  (overrides <= overrides')%Z ->
  trust_score_of drift_severity drop' bias_score overrides'
  <= trust_score_of drift_severity drop bias_score overrides.
Proof.
  intros Hd Ho. rewrite !trust_score_of_unfold. apply clamp_monotone.
  pose proof (accuracy_penalty_monotone _ _ Hd).
  pose proof (inject_Z_le_10 _ _ Ho). lra.
Qed.

Lemma trust_score_antitone_witness :
  trust_score_of "low" 0.2 0.15 3 <= trust_score_of "low" 0 0.15 1.
Proof.
  apply trust_score_antitone; [discriminate | lia].
Defined.

(** X4. Ten manual overrides in the last 24 hours, or more, bring the
    score of a computed result to 0, whatever the other signals: the level
    is ["kill_switch"] and the action is not ["none"]. *)
Theorem ten_overrides_zero_trust (now : Z) (s s' : db) (r : trust_result) :
  calculate_trust_score_body now s = inr (s', r) ->
  (10 <= _get_recent_overrides now s)%Z ->
  tr_trust_score r == 0
  /\ tr_autonomy_level r = "kill_switch"
  /\ (tr_governance_action r = "kill_switch"
      \/ tr_governance_action r = "require_approval").
Proof.
  intros H Hten.
  pose proof (trust_score_rounded _ _ _ _ H) as E.
  destruct (body_success _ _ _ _ H) as (_ & Hlev & _ & Hact & _).
  cbv zeta in Hlev, Hact.
  set (ts := trust_score_of _ _ _ _) in *.
  assert (Hts : ts == 0).
  { subst ts. rewrite trust_score_of_unfold.
    pose proof (drift_penalty_bounds (_get_drift_severity s)) as [Hd _].
    pose proof (accuracy_penalty_bounds (_get_accuracy_drop s)) as [Ha _].
    pose proof (inject_Z_le_10 _ _ Hten) as Ho.
    change (inject_Z 10 * 10) with 100 in Ho.
    change (_get_bias_score s) with 0.15.
    apply Qle_antisym; [apply clamp_le; [discriminate | lra] |].
    apply Q.le_max_l. }
  split; [rewrite E; exact Hts |].
  split.
  - rewrite Hlev. unfold _determine_autonomy_level. cbv zeta.
    change (autonomous (trust_levels thresholds)) with 80.
    change (human_on_loop (trust_levels thresholds)) with 60.
    change (approval_required (trust_levels thresholds)) with 40.
    case_cmp; try reflexivity; exfalso; lra.
  - rewrite Hact.
    destruct (governance_action_cases (_get_drift_severity s)
                (_get_accuracy_drop s) ts) as (K & RA & _).
    cbv zeta in K, RA.
    destruct (decide (_get_drift_severity s = "high")) as [Hh | Hnh];
      [left; apply K; now left |].
    destruct (Qlt_le_dec 0.10 (_get_accuracy_drop s)) as [Hacc | Hle];
      [left; apply K; now right |].
    right. apply RA; [intros [|]; [tauto | lra] | lra].
Qed.

Lemma ten_overrides_zero_trust_witness :
  tr_autonomy_level (calculate_trust_score 1000 Fixtures.ten_overrides_db).2
  = "kill_switch".
Proof.
  refine (proj1 (proj2 (ten_overrides_zero_trust 1000%Z
                   Fixtures.ten_overrides_db
                   (calculate_trust_score 1000 Fixtures.ten_overrides_db).1
                   (calculate_trust_score 1000 Fixtures.ten_overrides_db).2
                   _ _))).
  - vm_compute. reflexivity.
  - vm_compute. discriminate.
Defined.

End TrustScoreBehaviour.

(** ** Level, action and what is written *)

Section LevelAndAction.

Lemma autonomy_level_cases (trust_score : Q) :
  (80 <= trust_score
   /\ _determine_autonomy_level trust_score = "fully_autonomous")
  \/ (60 <= trust_score < 80
      /\ _determine_autonomy_level trust_score = "human-on-loop")
  \/ (40 <= trust_score < 60
      /\ _determine_autonomy_level trust_score = "approval_required")
  \/ (trust_score < 40
      /\ _determine_autonomy_level trust_score = "kill_switch").
Proof.
  unfold _determine_autonomy_level. cbv zeta.
  change (autonomous (trust_levels thresholds)) with 80.
  change (human_on_loop (trust_levels thresholds)) with 60.
  change (approval_required (trust_levels thresholds)) with 40.
  case_cmp.
  - left. tauto.
  - right. left. tauto.
  - right. right. left. tauto.
  - right. right. right. tauto.
Qed.

(** X5. Level and action of a computed result go together as follows: the
    action is ["none"] only at the levels ["fully_autonomous"] and
    ["human-on-loop"]; at the level ["approval_required"] the action is
    ["human_review"] or ["kill_switch"]; at the level ["kill_switch"] it is
    ["require_approval"] or ["kill_switch"]. *)
Theorem level_action_consistent (now : Z) (s s' : db) (r : trust_result) :
  calculate_trust_score_body now s = inr (s', r) ->
  (tr_governance_action r = "none" ->
   tr_autonomy_level r = "fully_autonomous"
   \/ tr_autonomy_level r = "human-on-loop")
  /\ (tr_autonomy_level r = "approval_required" ->
      tr_governance_action r = "human_review"
      \/ tr_governance_action r = "kill_switch")
  /\ (tr_autonomy_level r = "kill_switch" ->
      tr_governance_action r = "require_approval"
      \/ tr_governance_action r = "kill_switch").
Proof.
  intros H.
  destruct (body_success _ _ _ _ H) as (_ & Hlev & _ & Hact & _).
  cbv zeta in Hlev, Hact. rewrite Hlev, Hact.
  set (ts := trust_score_of _ _ _ _).
  destruct (governance_action_cases (_get_drift_severity s)
              (_get_accuracy_drop s) ts) as (K & RA & HR & N).
  cbv zeta in K, RA, HR, N.
  assert (Hc : (_get_drift_severity s = "high"
                \/ 0.10 < _get_accuracy_drop s)
               \/ ~ (_get_drift_severity s = "high"
                     \/ 0.10 < _get_accuracy_drop s)).
  { destruct (decide (_get_drift_severity s = "high")); [tauto |].
    destruct (Qlt_le_dec 0.10 (_get_accuracy_drop s)); [tauto |].
    right. intros [|]; [tauto | lra]. }
  destruct (autonomy_level_cases ts)
    as [[B ->] | [[B ->] | [[B ->] | [B ->]]]];
    (destruct Hc as [Hc | Hc];
     [rewrite (K Hc)
     | first [rewrite (N Hc) by lra
             | rewrite (HR Hc) by lra
             | rewrite (RA Hc) by lra]]);
    repeat split; intros; try discriminate; tauto.
Qed.

Lemma level_action_consistent_witness :
  tr_autonomy_level (calculate_trust_score 1000 Fixtures.empty_db).2
  = "fully_autonomous"
  \/ tr_autonomy_level (calculate_trust_score 1000 Fixtures.empty_db).2
     = "human-on-loop".
Proof.
  refine (proj1 (level_action_consistent 1000%Z Fixtures.empty_db
                   (calculate_trust_score 1000 Fixtures.empty_db).1
                   (calculate_trust_score 1000 Fixtures.empty_db).2 _) _);
    vm_compute; reflexivity.
Defined.

Lemma log_governance_event_frame now s r :
  let s' := _log_governance_event now s r in
  trust_scores s' = trust_scores s
  /\ incidents s' = incidents s
  /\ drift_logs s' = drift_logs s
  /\ performance_logs s' = performance_logs s
  /\ (governance_logs s' = governance_logs s
      \/ exists docs ev,
           governance_logs s = Up docs
           /\ governance_logs s' = Up (docs ++ [ev])
           /\ ge_event_type ev = "autonomy_change"
           /\ ge_new_level ev = Some (tr_autonomy_level r)).
Proof.
  unfold _log_governance_event.
  destruct (find_sorted_desc_limit tr_timestamp 2 (trust_scores s))
    as [e | [| r1 [| r2 rest]]]; try (repeat split; tauto).
  case_decide; [| repeat split; tauto].
  destruct (governance_logs s) as [docs | e] eqn:Hg; cbn [insert_one].
  - repeat split; try reflexivity. right. eexists. eexists.
    cbn [governance_logs]. repeat split; reflexivity.
  - rewrite Hg. repeat split; tauto.
Qed.

(** Scoring leaves the incidents and the drift and performance logs
    alone. *)
Lemma calculate_trust_score_frame now s :
  drift_logs (calculate_trust_score now s).1 = drift_logs s
  /\ incidents (calculate_trust_score now s).1 = incidents s.
Proof.
  unfold calculate_trust_score, calculate_trust_score_body. cbv zeta.
  destruct (trust_scores s) as [docs | e]; cbn [insert_one];
    [| split; reflexivity].
  case_decide; [| split; reflexivity].
  match goal with
  | |- context [_log_governance_event now ?s1 ?r] =>
      pose proof (log_governance_event_frame now s1 r) as F;
      cbv zeta in F; destruct F as (_ & F2 & F3 & _)
  end.
  cbn [fst]. rewrite F2, F3. split; reflexivity.
Qed.

(** X6. [calculate_trust_score] returns the degraded result exactly when
    the trust score collection is unreachable, and then writes nothing;
    otherwise the result has no [error], is the one document appended to
    the trust scores, the incidents and the drift and performance logs are
    as before, and nothing is added to the governance log when the action
    is ["none"]. *)
Theorem calculate_trust_score_writes (now : Z) (s : db) :
  (forall e, trust_scores s = Down e ->
     calculate_trust_score now s = (s, degraded_result now e))
  /\ (forall docs, trust_scores s = Up docs ->
        let s' := (calculate_trust_score now s).1 in
        let r := (calculate_trust_score now s).2 in
        tr_error r = None
        /\ trust_scores s' = Up (docs ++ [r])
        /\ incidents s' = incidents s
        /\ drift_logs s' = drift_logs s
        /\ performance_logs s' = performance_logs s
        /\ (tr_governance_action r = "none" ->
            governance_logs s' = governance_logs s)).
Proof.
  split.
  - intros e He. unfold calculate_trust_score.
    now rewrite (proj2 (body_raises now s e) He).
  - intros docs Hdocs. unfold calculate_trust_score, calculate_trust_score_body.
    cbv zeta. rewrite Hdocs. cbn [insert_one].
    match goal with
    | |- context [_log_governance_event now ?s1 ?r] =>
        pose proof (log_governance_event_frame now s1 r) as F;
        cbv zeta in F; destruct F as (F1 & F2 & F3 & F4 & _);
        generalize dependent (_log_governance_event now s1 r)
    end.
    intros s2 F1 F2 F3 F4.
    case_decide as Hact; cbn [fst snd tr_error tr_governance_action
      trust_scores incidents drift_logs performance_logs governance_logs].
    + rewrite F1, F2, F3, F4.
      cbn [trust_scores incidents drift_logs performance_logs].
      repeat split; try reflexivity. intros Hn. now rewrite Hn in Hact.
    + repeat split; reflexivity.
Qed.

Lemma calculate_trust_score_writes_witness :
  trust_scores (calculate_trust_score 1000 Fixtures.empty_db).1
  = Up ([] ++ [(calculate_trust_score 1000 Fixtures.empty_db).2]).
Proof.
  refine (proj1 (proj2 (proj2 (calculate_trust_score_writes 1000%Z
                                 Fixtures.empty_db) [] _))).
  reflexivity.
Defined.

End LevelAndAction.

(** ** The signals *)

Section Signals.

(** X7. The accuracy drop is never negative, and it is 0, with no accuracy
    penalty and no accuracy alert, whenever the performance log is
    unreachable or empty, or the latest entry has no accuracy or one at or
    above the baseline 0.95. *)
Theorem accuracy_drop_floor (s : db) :
  0 <= _get_accuracy_drop s
  /\ ((match find_one_latest pl_timestamp (performance_logs s) with
       | inr (Some log) =>
           match pl_accuracy log with
           | Some accuracy => 0.95 <= accuracy
           | None => True
           end
       | _ => True
       end) ->
      _get_accuracy_drop s == 0
      /\ _calculate_accuracy_penalty (_get_accuracy_drop s) = 0
      /\ forall drift_severity trust_score,
           ("critical_accuracy_drop"
              ∉ _check_alerts drift_severity (_get_accuracy_drop s)
                  trust_score)
           /\ ("accuracy_degradation"
                 ∉ _check_alerts drift_severity (_get_accuracy_drop s)
                     trust_score)).
Proof.
  assert (Hmax : forall x, 0 <= Py.max 0 x).
  { intros x. rewrite max_Qmax. apply Q.le_max_l. }
  split.
  - unfold _get_accuracy_drop. cbv zeta.
    destruct (find_one_latest pl_timestamp (performance_logs s))
      as [e | [log |]]; [discriminate | apply Hmax | discriminate].
  - intros Hcase.
    assert (H0 : _get_accuracy_drop s == 0).
    { unfold _get_accuracy_drop. cbv zeta.
      destruct (find_one_latest pl_timestamp (performance_logs s))
        as [e | [log |]]; try reflexivity.
      rewrite max_Qmax. apply Q.max_l.
      destruct (pl_accuracy log) as [accuracy |];
        cbn [default from_option id]; lra. }
    split; [exact H0 |]. split.
    + unfold _calculate_accuracy_penalty.
      change (acceptable (accuracy_drop thresholds)) with 0.02.
      case_cmp; [reflexivity | exfalso; lra ..].
    + intros drift_severity trust_score. unfold not.
      rewrite !check_alerts_elem.
      split; intros Hx; split_cases; first [congruence | lra].
Qed.

Lemma accuracy_drop_floor_witness :
  _get_accuracy_drop Fixtures.empty_db == 0.
Proof.
  refine (proj1 (proj2 (accuracy_drop_floor Fixtures.empty_db) _)).
  exact I.
Defined.

Lemma governance_logs_after_score now s :
  governance_logs (calculate_trust_score now s).1 = governance_logs s
  \/ exists docs ev,
       governance_logs s = Up docs
       /\ governance_logs (calculate_trust_score now s).1 = Up (docs ++ [ev])
       /\ ge_event_type ev = "autonomy_change".
Proof.
  unfold calculate_trust_score, calculate_trust_score_body. cbv zeta.
  destruct (trust_scores s) as [docs | e]; cbn [insert_one];
    [| left; reflexivity].
  case_decide; [| left; reflexivity].
  match goal with
  | |- context [_log_governance_event now ?s1 ?r] =>
      pose proof (log_governance_event_frame now s1 r) as F;
      cbv zeta in F; destruct F as (_ & _ & _ & _ & [F | F])
  end.
  - left. cbn [fst]. rewrite F. reflexivity.
  - right. destruct F as (gdocs & ev & F1 & F2 & F3 & _).
    exists gdocs, ev. cbn [fst]. cbn [governance_logs] in F1. tauto.
Qed.

(** X8. Scoring does not feed back into the override count: whatever
    [calculate_trust_score] writes, the number of manual overrides read at
    any later instant is the same as without the call. *)
Theorem scoring_keeps_override_count (now later : Z) (s : db) :
  _get_recent_overrides later (calculate_trust_score now s).1
  = _get_recent_overrides later s.
Proof.
  unfold _get_recent_overrides. cbv zeta.
  destruct (governance_logs_after_score now s)
    as [-> | (docs & ev & Hs & -> & Hev)]; [reflexivity |].
  rewrite Hs. cbn [count_documents].
  rewrite List.filter_app. cbn [List.filter].
  rewrite Hev. rewrite andb_false_r. now rewrite app_nil_r.
Qed.

End Signals.

(** ** Resolving incidents *)

Section ResolveAgain.
Variable isoformat : Z -> string.
Variable py_str : value -> string.

Lemma has_incident_id_set_resolved incident_id now notes d :
  has_incident_id incident_id (set_resolved now notes d)
  = has_incident_id incident_id d.
Proof.
  unfold has_incident_id, set_resolved.
  now rewrite !lookup_insert_ne by discriminate.
Qed.

Lemma set_resolved_twice now notes now' notes' d :
  set_resolved now' notes' (set_resolved now notes d)
  = set_resolved now' notes' d.
Proof.
  unfold set_resolved. apply map_eq. intros k.
  destruct (decide (k = "resolution_notes")) as [-> | K1];
    [now rewrite !lookup_insert_eq |].
  rewrite !(lookup_insert_ne _ "resolution_notes") by congruence.
  destruct (decide (k = "resolved_at")) as [-> | K2];
    [now rewrite !lookup_insert_eq |].
  rewrite !(lookup_insert_ne _ "resolved_at") by congruence.
  destruct (decide (k = "status")) as [-> | K3];
    [now rewrite !lookup_insert_eq |].
  rewrite !(lookup_insert_ne _ "status") by congruence.
  rewrite !(lookup_insert_ne _ "resolution_notes") by congruence.
  rewrite !(lookup_insert_ne _ "resolved_at") by congruence.
  now rewrite !(lookup_insert_ne _ "status") by congruence.
Qed.

Lemma update_first_twice {D : Type} `{EqDecision D}
    (filter : D -> bool) (upd upd' : D -> D) (l : list D) :
  (forall d, filter (upd d) = filter d) ->
  (forall d, upd' (upd d) = upd' d) ->
  (update_first filter upd' (update_first filter upd l).1).1
  = (update_first filter upd' l).1.
Proof.
  intros Hf Hu. induction l as [| d l IH]; [reflexivity |].
  cbn [update_first]. destruct (filter d) eqn:Hd.
  - cbn [fst update_first]. now rewrite Hf, Hd, Hu.
  - destruct (update_first filter upd l) as [l1 n1] eqn:E1.
    destruct (update_first filter upd' l) as [l2 n2] eqn:E2.
    cbn [fst update_first] in *. rewrite Hd.
    destruct (update_first filter upd' l1) as [l3 n3] eqn:E3.
    cbn [fst] in *. now rewrite IH.
Qed.

Lemma resolve_incident_store_eq now incident_id notes s :
  (resolve_incident isoformat py_str now incident_id notes s).1
  = match incidents s with
    | Up docs =>
        with_incidents s
          (Up (update_first (has_incident_id incident_id)
                 (set_resolved now notes) docs).1)
    | Down _ => s
    end.
Proof.
  destruct (resolve_incident_store isoformat py_str now incident_id notes s)
    as (c & -> & Hc).
  destruct (incidents s) as [docs | e] eqn:Hs; cbn [update_one] in Hc.
  - destruct (update_first _ _ docs) as [docs' n]. now subst c.
  - subst c. rewrite <- Hs. apply with_incidents_same.
Qed.

(** X9. Resolution is not once-only: resolving the same id a second time
    overwrites the first resolution, so the store after both calls is the
    store the second call alone would have left. *)
Theorem resolve_twice_last_wins
    (now now' : Z) (incident_id notes notes' : string) (s : db) :
  (resolve_incident isoformat py_str now' incident_id notes'
     (resolve_incident isoformat py_str now incident_id notes s).1).1
  = (resolve_incident isoformat py_str now' incident_id notes' s).1.
Proof.
  rewrite !resolve_incident_store_eq.
  destruct (incidents s) as [docs | e] eqn:Hs.
  - cbn [incidents with_incidents]. f_equal. f_equal.
    apply update_first_twice.
    + intros d. apply has_incident_id_set_resolved.
    + intros d. apply set_resolved_twice.
  - now rewrite Hs.
Qed.

Lemma find_first_split {D : Type} (filter : D -> bool) (l1 l2 : list D) d :
  Forall (fun x => filter x = false) l1 ->
  filter d = true ->
  List.find filter (l1 ++ d :: l2) = Some d.
Proof.
  intros Hl1 Hd. induction Hl1 as [| x l1 Hx _ IH]; cbn.
  - now rewrite Hd.
  - now rewrite Hx.
Qed.

(** What [resolve_incident] does when the first incident with the id is
    [d]. *)
Lemma resolve_incident_first now incident_id notes s l1 d l2 :
  incidents s = Up (l1 ++ d :: l2) ->
  Forall (fun x => has_incident_id incident_id x = false) l1 ->
  has_incident_id incident_id d = true ->
  let d' := set_resolved now notes d in
  resolve_incident isoformat py_str now incident_id notes s
  = (with_incidents s (Up (l1 ++ d' :: l2)),
     if decide (d' = d) then error_result "Incident not found"
     else
       match convert_field "_id" (str_value py_str) d' with
       | inl e => error_result (str e)
       | inr d1 =>
           match
             convert_field "detected_at" (isoformat_value isoformat) d1
           with
           | inl e => error_result (str e)
           | inr d2 =>
               match
                 convert_field "resolved_at" (isoformat_value isoformat) d2
               with
               | inl e => error_result (str e)
               | inr d3 => d3
               end
           end
       end).
Proof.
  intros Hs Hl1 Hd d'. unfold resolve_incident.
  rewrite Hs. cbn [update_one].
  rewrite (update_first_split _ _ _ _ _ Hl1 Hd). fold d'.
  case_decide as Hsame; [reflexivity |].
  cbn [Z.ltb Z.compare find_one].
  rewrite (find_first_split _ l1 l2 d' Hl1)
    by (subst d'; now rewrite has_incident_id_set_resolved).
  repeat match goal with
    | |- context [match ?x with inl _ => _ | inr _ => _ end] => destruct x
    end; reflexivity.
Qed.

(** The document returned for a resolved incident that carries an [_id]
    and a [detected_at] datetime. *)
Lemma resolved_document_fields now detected incident_id notes d oid :
  has_incident_id incident_id d = true ->
  d !! "_id" = Some oid ->
  d !! "detected_at" = Some (VDatetime detected) ->
  d !! "error" = None ->
  exists result,
    match convert_field "_id" (str_value py_str) (set_resolved now notes d)
    with
    | inl e => error_result (str e)
    | inr d1 =>
        match convert_field "detected_at" (isoformat_value isoformat) d1 with
        | inl e => error_result (str e)
        | inr d2 =>
            match
              convert_field "resolved_at" (isoformat_value isoformat) d2
            with
            | inl e => error_result (str e)
            | inr d3 => d3
            end
        end
    end = result
    /\ result !! "error" = None
    /\ result !! "incident_id" = Some (VStr incident_id)
    /\ result !! "status" = Some (VStr "resolved")
    /\ result !! "resolution_notes" = Some (VStr notes)
    /\ result !! "resolved_at" = Some (VStr (isoformat now))
    /\ result !! "detected_at" = Some (VStr (isoformat detected))
    /\ result !! "_id" = Some (VStr (py_str oid)).
Proof.
  intros Hd Hid Hdet Herr.
  unfold convert_field, set_resolved, str_value, isoformat_value.
  rewrite !lookup_insert_ne by discriminate. rewrite Hid.
  rewrite (lookup_insert_ne _ "_id" "detected_at") by discriminate.
  rewrite !(lookup_insert_ne _ _ "detected_at") by discriminate.
  rewrite Hdet.
  rewrite (lookup_insert_ne _ "detected_at" "resolved_at") by discriminate.
  rewrite (lookup_insert_ne _ "_id" "resolved_at") by discriminate.
  rewrite (lookup_insert_ne _ "resolution_notes" "resolved_at")
    by discriminate.
  rewrite lookup_insert_eq.
  unfold has_incident_id in Hd. apply bool_decide_eq_true in Hd.
  eexists. split; [reflexivity |].
  repeat split; by simplify_map_eq.
Qed.

(** X10. When the first incident with the id carries an [_id] and a
    [detected_at] datetime and the update changes it, the call returns
    that incident resolved, with no [error], its two datetimes in ISO
    text and its [_id] as text. *)
Theorem resolve_incident_returns_resolved
    (now detected : Z) (incident_id notes : string) (s : db)
    (l1 l2 : list (gmap string value)) (d : gmap string value) (oid : value) :
  incidents s = Up (l1 ++ d :: l2) ->
  Forall (fun x => has_incident_id incident_id x = false) l1 ->
  has_incident_id incident_id d = true ->
  d !! "_id" = Some oid ->
  d !! "detected_at" = Some (VDatetime detected) ->
  d !! "error" = None ->
  set_resolved now notes d <> d ->
  let result :=
    (resolve_incident isoformat py_str now incident_id notes s).2 in
  result !! "error" = None
  /\ result !! "incident_id" = Some (VStr incident_id)
  /\ result !! "status" = Some (VStr "resolved")
  /\ result !! "resolution_notes" = Some (VStr notes)
  /\ result !! "resolved_at" = Some (VStr (isoformat now))
  /\ result !! "detected_at" = Some (VStr (isoformat detected))
  /\ result !! "_id" = Some (VStr (py_str oid)).
Proof.
  intros Hs Hl1 Hd Hid Hdet Herr Hneq result. subst result.
  rewrite (resolve_incident_first now incident_id notes s l1 d l2 Hs Hl1 Hd).
  cbv zeta. cbn [snd]. case_decide; [contradiction |].
  destruct (resolved_document_fields now detected incident_id notes d oid
              Hd Hid Hdet Herr) as (result & -> & F).
  exact F.
Qed.

(** X11. An incident that exists can be reported missing: when the update
    leaves the first incident with the id as it is (already resolved at
    the same instant with the same notes), the call returns the error
    ["Incident not found"] and the store is unchanged. *)
Theorem resolve_unchanged_reports_not_found
    (now : Z) (incident_id notes : string) (s : db)
    (l1 l2 : list (gmap string value)) (d : gmap string value) :
  incidents s = Up (l1 ++ d :: l2) ->
  Forall (fun x => has_incident_id incident_id x = false) l1 ->
  has_incident_id incident_id d = true ->
  set_resolved now notes d = d ->
  resolve_incident isoformat py_str now incident_id notes s
  = (s, error_result "Incident not found").
Proof.
  intros Hs Hl1 Hd Hsame.
  rewrite (resolve_incident_first now incident_id notes s l1 d l2 Hs Hl1 Hd).
  cbv zeta. rewrite Hsame. case_decide; [| contradiction].
  f_equal. rewrite <- Hs. apply with_incidents_same.
Qed.

(** C8, amended. Each call of [resolve_incident] changes the store in at
    most one incident and only in the resolution fields: when the store
    holds an incident with the given id, the first such incident gets
    [status] ["resolved"], [resolved_at] the time of the call and
    [resolution_notes] the notes supplied, every other field of it and
    every other incident stay as they were; when no incident has the id,
    the store is unchanged and the error ["Incident not found"] is
    returned.  The change is not once-only: no guard looks at the status,
    and a later call for the same id sets [resolved_at] and
    [resolution_notes] again, to its own time and notes. *)
Theorem resolve_incident_frame_each_call
    (now now' : Z) (incident_id notes notes' : string) (s : db) :
  (forall l1 d l2,
      incidents s = Up (l1 ++ d :: l2) ->
      Forall (fun x => has_incident_id incident_id x = false) l1 ->
      has_incident_id incident_id d = true ->
      exists d',
        (resolve_incident isoformat py_str now incident_id notes s).1
        = with_incidents s (Up (l1 ++ d' :: l2))
        /\ d' !! "status" = Some (VStr "resolved")
        /\ d' !! "resolved_at" = Some (VDatetime now)
        /\ d' !! "resolution_notes" = Some (VStr notes)
        /\ forall k, k <> "status" -> k <> "resolved_at" ->
                     k <> "resolution_notes" -> d' !! k = d !! k)
  /\ (forall l,
         incidents s = Up l ->
         Forall (fun x => has_incident_id incident_id x = false) l ->
         resolve_incident isoformat py_str now incident_id notes s
         = (s, error_result "Incident not found"))
  /\ (forall l1 d l2,
         incidents s = Up (l1 ++ d :: l2) ->
         Forall (fun x => has_incident_id incident_id x = false) l1 ->
         has_incident_id incident_id d = true ->
         exists d'',
           (resolve_incident isoformat py_str now' incident_id notes'
              (resolve_incident isoformat py_str now incident_id notes
                 s).1).1
           = with_incidents s (Up (l1 ++ d'' :: l2))
           /\ d'' !! "status" = Some (VStr "resolved")
           /\ d'' !! "resolved_at" = Some (VDatetime now')
           /\ d'' !! "resolution_notes" = Some (VStr notes')
           /\ forall k, k <> "status" -> k <> "resolved_at" ->
                        k <> "resolution_notes" -> d'' !! k = d !! k).
Proof.
  destruct (resolve_incident_single_call isoformat py_str now incident_id
              notes s) as [Hfirst Hnone].
  split; [exact Hfirst |]. split; [exact Hnone |].
  intros l1 d l2 Hs Hl1 Hd.
  assert (Heq :
    (resolve_incident isoformat py_str now' incident_id notes'
       (resolve_incident isoformat py_str now incident_id notes s).1).1
    = (resolve_incident isoformat py_str now' incident_id notes' s).1).
  { rewrite !resolve_incident_store_eq. rewrite Hs.
    cbn [incidents with_incidents]. f_equal. f_equal.
    apply update_first_twice.
    - intros x. apply has_incident_id_set_resolved.
    - intros x. apply set_resolved_twice. }
  rewrite Heq.
  exact (proj1 (resolve_incident_single_call isoformat py_str now'
                  incident_id notes' s) l1 d l2 Hs Hl1 Hd).
Qed.

End ResolveAgain.

Section ResolveAgainWitnesses.
Import Fixtures.

Lemma resolve_incident_returns_resolved_witness :
  (resolve_incident (fun _ => "t") (fun _ => "id") 900 "INC-2" "fixed"
     two_incidents_db).2 !! "status"
  = Some (VStr "resolved").
Proof.
  refine (proj1 (proj2 (proj2
    (resolve_incident_returns_resolved (fun _ => "t") (fun _ => "id")
       900%Z 200%Z "INC-2" "fixed" two_incidents_db
       [incident "INC-1" 100] [] (incident "INC-2" 200) (VObjectId 1)
       _ _ _ _ _ _ _)))).
  - reflexivity.
  - repeat constructor.
  - vm_compute. reflexivity.
  - vm_compute. reflexivity.
  - vm_compute. reflexivity.
  - vm_compute. reflexivity.
  - intros H.
    apply (f_equal (fun m : gmap string value => m !! "status")) in H.
    vm_compute in H. discriminate H.
Defined.

Lemma resolve_unchanged_reports_not_found_witness :
  resolve_incident (fun _ => "t") (fun _ => "id") 900 "INC-7" "fixed"
    resolved_incident_db
  = (resolved_incident_db, error_result "Incident not found").
Proof.
  apply (resolve_unchanged_reports_not_found (fun _ => "t") (fun _ => "id")
           900%Z "INC-7" "fixed" resolved_incident_db [] [] resolved_incident).
  - reflexivity.
  - constructor.
  - vm_compute. reflexivity.
  - apply set_resolved_twice.
Defined.

(** C8, as stated, fails in its "once": an incident resolved at instant
    900 is changed again by a call at instant 950, which overwrites
    [resolved_at] and [resolution_notes]. *)
Lemma resolved_incident_mutated_again :
  incident_field "INC-2" "status" resolved_once_db = Some (VStr "resolved")
  /\ incident_field "INC-2" "resolved_at" resolved_once_db
     = Some (VDatetime 900)
  /\ incident_field "INC-2" "resolution_notes" resolved_once_db
     = Some (VStr "fixed")
  /\ incident_field "INC-2" "resolved_at" resolved_twice_db
     = Some (VDatetime 950)
  /\ incident_field "INC-2" "resolution_notes" resolved_twice_db
     = Some (VStr "changed")
  /\ incidents resolved_once_db <> incidents resolved_twice_db.
Proof.
  do 5 (split; [vm_compute; reflexivity |]).
  intros H.
  apply (f_equal (fun c => incident_field "INC-2" "resolved_at"
                             (with_incidents empty_db c))) in H.
  vm_compute in H. discriminate H.
Qed.

Lemma resolve_incident_frame_each_call_witness :
  (exists d',
      (resolve_incident (fun _ => "t") (fun _ => "id") 900 "INC-2" "fixed"
         two_incidents_db).1
      = with_incidents two_incidents_db
          (Up ([incident "INC-1" 100] ++ d' :: []))
      /\ d' !! "status" = Some (VStr "resolved")
      /\ d' !! "resolved_at" = Some (VDatetime 900)
      /\ d' !! "resolution_notes" = Some (VStr "fixed")
      /\ forall k, k <> "status" -> k <> "resolved_at" ->
                   k <> "resolution_notes" ->
                   d' !! k = incident "INC-2" 200 !! k)
  /\ resolve_incident (fun _ => "t") (fun _ => "id") 900 "INC-3" "fixed"
       two_incidents_db
     = (two_incidents_db, error_result "Incident not found")
  /\ (exists d'',
         (resolve_incident (fun _ => "t") (fun _ => "id") 950 "INC-2"
            "changed"
            (resolve_incident (fun _ => "t") (fun _ => "id") 900 "INC-2"
               "fixed" two_incidents_db).1).1
         = with_incidents two_incidents_db
             (Up ([incident "INC-1" 100] ++ d'' :: []))
         /\ d'' !! "status" = Some (VStr "resolved")
         /\ d'' !! "resolved_at" = Some (VDatetime 950)
         /\ d'' !! "resolution_notes" = Some (VStr "changed")
         /\ forall k, k <> "status" -> k <> "resolved_at" ->
                      k <> "resolution_notes" ->
                      d'' !! k = incident "INC-2" 200 !! k).
Proof.
  split; [| split].
  - apply (proj1 (resolve_incident_frame_each_call (fun _ => "t")
                    (fun _ => "id") 900%Z 950%Z "INC-2" "fixed" "changed"
                    two_incidents_db)).
    + reflexivity.
    + repeat constructor.
    + vm_compute. reflexivity.
  - apply (proj1 (proj2 (resolve_incident_frame_each_call (fun _ => "t")
                    (fun _ => "id") 900%Z 950%Z "INC-3" "fixed" "changed"
                    two_incidents_db))
             [incident "INC-1" 100; incident "INC-2" 200]).
    + reflexivity.
    + repeat constructor.
  - apply (proj2 (proj2 (resolve_incident_frame_each_call (fun _ => "t")
                    (fun _ => "id") 900%Z 950%Z "INC-2" "fixed" "changed"
                    two_incidents_db))).
    + reflexivity.
    + repeat constructor.
    + vm_compute. reflexivity.
Defined.

End ResolveAgainWitnesses.

(** ** Simulated incidents *)

Section Simulation.
Variable strftime : Z -> string.
Variables (isoformat : Z -> string) (py_str : value -> string).

Lemma latest_app_newest {D : Type} (key : D -> Z) (l : list D) (d : D) :
  Forall (fun x => (key x < key d)%Z) l ->
  latest key (l ++ [d]) = Some d.
Proof.
  induction 1 as [| x l Hx _ IH]; cbn [app latest]; [reflexivity |].
  rewrite IH. now apply Z.ltb_lt in Hx as ->.
Qed.

(** The parts of the simulation's outcome, when the store is reachable
    and no drift log is dated [now] or later. *)
Lemma simulate_drift_incident_run now oid s dlogs scores incs :
  drift_logs s = Up dlogs ->
  Forall (fun d => (dl_timestamp d < now)%Z) dlogs ->
  trust_scores s = Up scores ->
  incidents s = Up incs ->
  exists s1 s2 r incident,
    _get_drift_severity s1 = "high"
    /\ calculate_trust_score_body now s1 = inr (s2, r)
    /\ incidents s2 = Up incs
    /\ incident !! "incident_id" = Some (VStr ("INC-" +:+ strftime now))
    /\ incident !! "status" = Some (VStr "open")
    /\ incident !! "detected_at" = Some (VDatetime now)
    /\ incident !! "_id" = Some (VObjectId oid)
    /\ incident !! "error" = None
    /\ simulate_drift_incident strftime now oid s
       = (with_incidents s2 (Up (incs ++ [incident])),
          {| sim_error := None; sim_incident := Some incident;
             sim_trust_result := Some r |}).
Proof.
  intros Hdl Hnew Hts Hinc. unfold simulate_drift_incident.
  rewrite Hdl. cbn [insert_one].
  set (fake := {| dl_timestamp := now; dl_test_type := "simulated" |}).
  set (s1 := set_drift_logs s (Up (dlogs ++ [fake]))).
  assert (Hsev : _get_drift_severity s1 = "high").
  { unfold _get_drift_severity, s1. cbn [drift_logs set_drift_logs
      find_one_latest].
    now rewrite (latest_app_newest dl_timestamp dlogs fake Hnew). }
  destruct (calculate_trust_score_body now s1) as [e | [s2 r]] eqn:Hbody.
  { apply body_raises in Hbody. unfold s1 in Hbody.
    cbn [trust_scores set_drift_logs] in Hbody. congruence. }
  assert (Hcalc : calculate_trust_score now s1 = (s2, r)).
  { unfold calculate_trust_score. now rewrite Hbody. }
  assert (Hinc2 : incidents s2 = Up incs).
  { pose proof (proj2 (calculate_trust_score_frame now s1)) as F.
    rewrite Hcalc in F. cbn [fst] in F. rewrite F.
    unfold s1. cbn [incidents set_drift_logs]. exact Hinc. }
  rewrite Hcalc, Hinc2. cbn [insert_one]. cbv zeta.
  match goal with
  | |- context [Build_simulation_result _ (Some ?i) _] =>
      set (incident := i)
  end.
  exists s1, s2, r, incident.
  split; [exact Hsev |]. split; [exact Hbody |]. split; [exact Hinc2 |].
  do 5 (split; [subst incident; clear; vm_compute; reflexivity |]).
  reflexivity.
Qed.

(** X12. On a reachable store whose drift logs are all dated before [now],
    [simulate_drift_incident] succeeds: the score it recomputes reads the
    drift severity ["high"], carries the [critical_drift] alert and the
    action ["kill_switch"], and one open incident named after [now] is
    appended to the incidents. *)
Theorem simulation_trips_kill_switch
    (now : Z) (oid : positive) (s : db) (dlogs : list drift_log)
    (scores : list trust_result) (incs : list (gmap string value)) :
  drift_logs s = Up dlogs ->
  Forall (fun d => (dl_timestamp d < now)%Z) dlogs ->
  trust_scores s = Up scores ->
  incidents s = Up incs ->
  let s' := (simulate_drift_incident strftime now oid s).1 in
  let out := (simulate_drift_incident strftime now oid s).2 in
  exists r incident,
    sim_error out = None
    /\ sim_trust_result out = Some r
    /\ sim_incident out = Some incident
    /\ tr_governance_action r = "kill_switch"
    /\ (exists alerts, tr_alerts_triggered r = Some alerts
                       /\ "critical_drift" ∈ alerts)
    /\ incident !! "status" = Some (VStr "open")
    /\ incident !! "incident_id" = Some (VStr ("INC-" +:+ strftime now))
    /\ incidents s' = Up (incs ++ [incident]).
Proof.
  intros Hdl Hnew Hts Hinc s' out. subst s' out.
  destruct (simulate_drift_incident_run now oid s dlogs scores incs
              Hdl Hnew Hts Hinc)
    as (s1 & s2 & r & incident & Hsev & Hbody & _ & Hid & Hst & _ & _ & _
        & ->).
  exists r, incident. cbn [fst snd sim_error sim_trust_result sim_incident].
  destruct (body_success _ _ _ _ Hbody) as (_ & _ & Hal & Hact & _).
  cbv zeta in Hal, Hact.
  repeat split; try reflexivity; try assumption.
  - rewrite Hact.
    apply (proj1 (governance_action_cases _ _ _)). left. exact Hsev.
  - eexists. split; [exact Hal |].
    apply critical_drift_alert. exact Hsev.
Qed.

(** X13. An incident raised by the simulation can be resolved: if no
    earlier incident bears its id, resolving that id on the store the
    simulation left returns the incident with status ["resolved"], no
    [error], and both datetimes in ISO text. *)
Theorem simulated_incident_resolves
    (now later : Z) (oid : positive) (notes : string) (s : db)
    (dlogs : list drift_log) (scores : list trust_result)
    (incs : list (gmap string value)) :
  drift_logs s = Up dlogs ->
  Forall (fun d => (dl_timestamp d < now)%Z) dlogs ->
  trust_scores s = Up scores ->
  incidents s = Up incs ->
  Forall (fun x => has_incident_id ("INC-" +:+ strftime now) x = false)
    incs ->
  let s' := (simulate_drift_incident strftime now oid s).1 in
  let result :=
    (resolve_incident isoformat py_str later ("INC-" +:+ strftime now)
       notes s').2 in
  result !! "error" = None
  /\ result !! "status" = Some (VStr "resolved")
  /\ result !! "resolution_notes" = Some (VStr notes)
  /\ result !! "resolved_at" = Some (VStr (isoformat later))
  /\ result !! "detected_at" = Some (VStr (isoformat now)).
Proof.
  intros Hdl Hnew Hts Hinc Hfresh s' result. subst s' result.
  destruct (simulate_drift_incident_run now oid s dlogs scores incs
              Hdl Hnew Hts Hinc)
    as (s1 & s2 & r & incident & _ & _ & _ & Hid & Hst & Hdet & Hoid & Herr
        & ->).
  cbn [fst].
  assert (Hmatch : has_incident_id ("INC-" +:+ strftime now) incident
                   = true).
  { unfold has_incident_id. now apply bool_decide_eq_true. }
  rewrite (resolve_incident_first isoformat py_str later
             ("INC-" +:+ strftime now) notes
             (with_incidents s2 (Up (incs ++ [incident])))
             incs incident [] eq_refl Hfresh Hmatch).
  cbv zeta. cbn [snd]. case_decide as Hsame.
  { apply (f_equal (fun m : gmap string value => m !! "status")) in Hsame.
    unfold set_resolved in Hsame.
    rewrite !lookup_insert_ne, lookup_insert_eq, Hst in Hsame
      by discriminate.
    discriminate Hsame. }
  destruct (resolved_document_fields isoformat py_str later now
              ("INC-" +:+ strftime now) notes incident (VObjectId oid)
              Hmatch Hoid Hdet Herr) as (result & -> & F).
  tauto.
Qed.

End Simulation.

Section SimulationWitnesses.
Import Fixtures.

Lemma simulation_trips_kill_switch_witness :
  exists r incident,
    sim_error (simulate_drift_incident (fun _ => "20261103") 1000 7
                 empty_db).2 = None
    /\ sim_trust_result (simulate_drift_incident (fun _ => "20261103") 1000 7
                           empty_db).2 = Some r
    /\ sim_incident (simulate_drift_incident (fun _ => "20261103") 1000 7
                       empty_db).2 = Some incident
    /\ tr_governance_action r = "kill_switch"
    /\ (exists alerts, tr_alerts_triggered r = Some alerts
                       /\ "critical_drift" ∈ alerts)
    /\ incident !! "status" = Some (VStr "open")
    /\ incident !! "incident_id" = Some (VStr "INC-20261103")
    /\ incidents (simulate_drift_incident (fun _ => "20261103") 1000 7
                    empty_db).1 = Up ([] ++ [incident]).
Proof.
  apply (simulation_trips_kill_switch (fun _ => "20261103") 1000%Z 7%positive
           empty_db [] [] []); first [reflexivity | constructor].
Defined.

Lemma simulated_incident_resolves_witness :
  (resolve_incident (fun _ => "t") (fun _ => "id") 2000 "INC-20261103"
     "fixed"
     (simulate_drift_incident (fun _ => "20261103") 1000 7 empty_db).1).2
    !! "status"
  = Some (VStr "resolved").
Proof.
  refine (proj1 (proj2
    (simulated_incident_resolves (fun _ => "20261103") (fun _ => "t")
       (fun _ => "id") 1000%Z 2000%Z 7%positive "fixed" empty_db [] [] []
       _ _ _ _ _))); first [reflexivity | constructor].
Defined.

End SimulationWitnesses.

(** ** The explanation *)

Section Explanation.
Variable format_1f : Q -> string.

Lemma prefix_app (x y : string) : String.prefix x (x +:+ y) = true.
Proof.
  induction x as [| c x IH].
  - change ("" +:+ y) with y. now destruct y.
  - change (String c x +:+ y) with (String c (x +:+ y)).
    cbn [String.prefix]. rewrite IH.
    now destruct (Ascii.ascii_dec c c).
Qed.

Lemma prefix_refl (x : string) : String.prefix x x = true.
Proof.
  induction x as [| c x IH]; cbn; [reflexivity |].
  rewrite IH. now destruct (Ascii.ascii_dec c c).
Qed.

Lemma join_prefix sep x rest : String.prefix x (join sep (x :: rest)) = true.
Proof.
  destruct rest as [| y rest]; cbn [join];
    [apply prefix_refl | apply prefix_app].
Qed.

(** X14. The explanation opens with the sentence of the level that
    [_determine_autonomy_level] gives the same score: the cut-offs written
    into [_generate_explanation] agree with the threshold table. *)
Theorem explanation_opens_with_level
    (trust_score : Q) (autonomy_level drift_severity : string)
    (accuracy_drop_ : Q) (alerts : list string) :
  let sentence :=
    level_sentence (_determine_autonomy_level trust_score) in
  (exists rest,
      explanation_sentences format_1f trust_score autonomy_level
        drift_severity accuracy_drop_ alerts = sentence :: rest
      /\ (length rest <= 3)%nat)
  /\ String.prefix sentence
       (_generate_explanation format_1f trust_score autonomy_level
          drift_severity accuracy_drop_ alerts) = true.
Proof.
  intros sentence.
  assert (H : exists rest,
      explanation_sentences format_1f trust_score autonomy_level
        drift_severity accuracy_drop_ alerts = sentence :: rest
      /\ (length rest <= 3)%nat).
  { subst sentence.
    unfold explanation_sentences, _determine_autonomy_level. cbv zeta.
    change (autonomous (trust_levels thresholds)) with 80.
    change (human_on_loop (trust_levels thresholds)) with 60.
    change (approval_required (trust_levels thresholds)) with 40.
    destruct alerts as [| a alerts'];
      destruct (geb trust_score 80); [| destruct (geb trust_score 60);
                                        [| destruct (geb trust_score 40)] | |
                                      destruct (geb trust_score 60);
                                        [| destruct (geb trust_score 40)]];
      repeat case_decide; destruct (gtb accuracy_drop_ 0.05);
      cbn [app]; eexists; (split; [reflexivity | cbn [length]; lia]). }
  split; [exact H |].
  destruct H as (rest & Hrest & _).
  unfold _generate_explanation. rewrite Hrest. apply join_prefix.
Qed.

End Explanation.

(** ** Drift checks *)

Section DriftChecks.
Import DriftDetector.
Variable ks_2samp : list Q -> list Q -> exn + (pyfloat * pyfloat).
Variable calculate_psi : list Q -> list Q -> pyfloat.

(** The record of a drift check, field by field. *)
Lemma check_drift_record now feature training current alpha logs :
  let '(dd, ks_stat, p_value) := ks_test ks_2samp training current alpha in
  let psi := calculate_psi training current in
  (check_drift ks_2samp calculate_psi now feature training current alpha
     logs).2
  = {| dl_timestamp := now;
       dl_feature := feature;
       dl_drift_detected := dd || fgtb psi 0.2;
       dl_severity :=
         if fgtb psi 0.2 || (dd && fgtb ks_stat 0.3) then "high"
         else if fgtb psi 0.1 || dd then "moderate" else "low";
       dl_ks_statistic := ks_stat;
       dl_p_value := p_value;
       dl_psi_score := Some psi;
       dl_test_type := "ks_test_and_psi" |}.
Proof.
  unfold check_drift.
  destruct (ks_test ks_2samp training current alpha) as [[dd ks] p].
  cbv zeta. now destruct (insert_one _ logs).
Qed.

(** X15. In every record [check_drift] produces the fields agree: the
    severity is ["low"] exactly when the PSI is not above 0.1 and the KS
    test found no drift; a record flagged [drift_detected] is never
    ["low"]; a PSI above 0.2 gives ["high"] with the flag set; and a NaN
    PSI, as an empty current sample gives, is above nothing, so that
    without KS drift the record is ["low"] and unflagged. *)
Theorem check_drift_fields_agree
    (now : Z) (feature : string) (training current : list Q) (alpha : Q)
    (logs : coll drift_log) :
  let r :=
    (check_drift ks_2samp calculate_psi now feature training current alpha
       logs).2 in
  let psi := calculate_psi training current in
  let ks_drift := (ks_test ks_2samp training current alpha).1.1 in
  (dl_severity r = "low" <-> ~ above psi 0.1 /\ ks_drift = false)
  /\ (dl_drift_detected r = true -> dl_severity r <> "low")
  /\ (above psi 0.2 -> dl_severity r = "high" /\ dl_drift_detected r = true)
  /\ (dl_severity r = "low" \/ dl_severity r = "moderate"
      \/ dl_severity r = "high")
  /\ dl_psi_score r = Some psi
  /\ (psi = NaN -> ks_drift = false ->
      dl_severity r = "low" /\ dl_drift_detected r = false).
Proof.
  intros r psi ks_drift. subst r ks_drift.
  pose proof (check_drift_record now feature training current alpha logs)
    as Hr.
  destruct (ks_test ks_2samp training current alpha) as [[dd ks] p].
  cbv zeta in Hr. rewrite Hr. fold psi.
  cbn [dl_severity dl_drift_detected dl_psi_score fst].
  assert (W21 : above psi 0.2 -> above psi 0.1)
    by (apply above_weaken; discriminate).
  assert (Wnan : psi = NaN -> ~ above psi 0.1) by (intros ->; cbn; tauto).
  case_fcmp; destruct dd; cbn [orb andb];
    repeat split; intros; split_cases;
    try discriminate; try reflexivity; try congruence; try tauto;
    try (unfold not; intros; split_cases; first [tauto | congruence]).
Qed.

(** X16. A drift check does not depend on its side work: when the KS
    test raises, the check still returns, with no KS drift, p-value 1 and
    a severity decided by the PSI alone; and when logging fails the same
    record is returned and the log is left as it was, while a reachable
    log grows by exactly that record. *)
Theorem check_drift_survives_failures
    (now : Z) (feature : string) (training current : list Q) (alpha : Q) :
  let psi := calculate_psi training current in
  (forall e logs,
      ks_2samp training current = inl e ->
      let r :=
        (check_drift ks_2samp calculate_psi now feature training current
           alpha logs).2 in
      dl_p_value r = Num 1.0
      /\ dl_ks_statistic r = Num 0.0
      /\ dl_drift_detected r = fgtb psi 0.2
      /\ dl_severity r
         = (if fgtb psi 0.2 then "high"
            else if fgtb psi 0.1 then "moderate" else "low"))
  /\ (forall e,
         check_drift ks_2samp calculate_psi now feature training current
           alpha (Down e)
         = (Down e,
            (check_drift ks_2samp calculate_psi now feature training
               current alpha (Up [])).2))
  /\ (forall docs,
         check_drift ks_2samp calculate_psi now feature training current
           alpha (Up docs)
         = (Up (docs ++
                  [(check_drift ks_2samp calculate_psi now feature training
                      current alpha (Up [])).2]),
            (check_drift ks_2samp calculate_psi now feature training
               current alpha (Up [])).2)).
Proof.
  intros psi. split; [| split].
  - intros e logs He r. subst r.
    pose proof (check_drift_record now feature training current alpha logs)
      as Hr.
    unfold ks_test in Hr. rewrite He in Hr. cbv zeta in Hr. rewrite Hr.
    fold psi. cbn [dl_p_value dl_ks_statistic dl_drift_detected dl_severity
                   orb andb].
    rewrite !orb_false_r. repeat split; reflexivity.
  - intros e. unfold check_drift.
    destruct (ks_test ks_2samp training current alpha) as [[dd ks] p].
    reflexivity.
  - intros docs. unfold check_drift.
    destruct (ks_test ks_2samp training current alpha) as [[dd ks] p].
    reflexivity.
Qed.

End DriftChecks.

Section DriftChecksWitnesses.
Import DriftDetector Fixtures.

Lemma check_drift_fields_agree_witness :
  (dl_severity psi_quarter_check.2 = "high"
   /\ dl_drift_detected psi_quarter_check.2 = true)
  /\ (dl_severity nan_psi_check.2 = "low"
      /\ dl_drift_detected nan_psi_check.2 = false).
Proof.
  split.
  - refine (proj1 (proj2 (proj2
      (check_drift_fields_agree (fun _ _ => inr (Num 0.1, Num 1))
         (fun _ _ => Num 0.25) 1000%Z "income" [1; 2; 3] [1; 2; 4] 0.05
         (Up [])))) _).
    vm_compute. reflexivity.
  - refine (proj2 (proj2 (proj2 (proj2 (proj2
      (check_drift_fields_agree
         (fun _ _ => inl (IndexError "empty sample")) (fun _ _ => NaN)
         1000%Z "income" [1; 2; 3] [] 0.05 (Up []))))))  _ _);
      reflexivity.
Defined.

Lemma check_drift_survives_failures_witness :
  dl_severity
    (check_drift (fun _ _ => inl (IndexError "empty sample"))
       (fun _ _ => Num 0.15) 1000 "age" [] [] 0.05 (Up [])).2
  = "moderate".
Proof.
  refine (proj2 (proj2 (proj2 (proj1
    (check_drift_survives_failures
       (fun _ _ => inl (IndexError "empty sample")) (fun _ _ => Num 0.15)
       1000%Z "age" [] [] 0.05)
    (IndexError "empty sample") (Up []) _)))).
  reflexivity.
Defined.

End DriftChecksWitnesses.

(** ** Predictions *)

Section Predictions.
Import CreditRiskModel.

Lemma map_risk_category_cases (p : Q) :
  (0.7 < p /\ _map_risk_category p = "Low")
  \/ (0.3 <= p <= 0.7 /\ _map_risk_category p = "Medium")
  \/ (p < 0.3 /\ _map_risk_category p = "High").
Proof.
  unfold _map_risk_category. case_cmp.
  - left. tauto.
  - right. left. tauto.
  - right. right. tauto.
Qed.

(** X17. The risk category follows the approval probability: a higher
    probability never gives a riskier category. *)
Theorem risk_category_monotone (p q : Q) :
  p <= q ->
  (risk_rank (_map_risk_category q) <= risk_rank (_map_risk_category p))%nat.
Proof.
  intros Hpq.
  destruct (map_risk_category_cases p) as [[Hp ->] | [[Hp ->] | [Hp ->]]];
    destruct (map_risk_category_cases q) as [[Hq ->] | [[Hq ->] | [Hq ->]]];
    vm_compute; try lia; exfalso; lra.
Qed.

Lemma risk_category_monotone_witness :
  (risk_rank (_map_risk_category 0.75) <= risk_rank (_map_risk_category 0.2))%nat.
Proof. apply risk_category_monotone. discriminate. Defined.

(** X18. [predict] without a loaded model raises [ValueError]; with a
    classifier that returns two probabilities summing to 1 it returns the
    second as approval probability and the larger as confidence, so the
    confidence is at least 0.5, exceeds 0.7 in the categories ["Low"] and
    ["High"], and is at most 0.7 in ["Medium"]. *)
Theorem predict_confidence
    (predict_proba : list pyfloat -> exn + list Q)
    (customer_data : CustomerData) :
  predict None customer_data
  = inl (ValueError "Model not loaded. Call load_model() first.")
  /\ ((forall features, exists p0 p1,
          predict_proba features = inr [p0; p1] /\ p0 + p1 == 1) ->
      exists p0 p1 category confidence,
        predict (Some predict_proba) customer_data
        = inr (p1, category, confidence)
        /\ p0 + p1 == 1
        /\ category = _map_risk_category p1
        /\ confidence == Qmax p0 p1
        /\ 0.5 <= confidence
        /\ (category = "Low" -> confidence == p1 /\ 0.7 < confidence)
        /\ (category = "High" -> confidence == p0 /\ 0.7 < confidence)
        /\ (category = "Medium" -> confidence <= 0.7)).
Proof.
  split; [reflexivity |].
  intros Hdist. unfold predict. cbv zeta.
  match goal with
  | |- context [predict_proba ?f] =>
      destruct (Hdist f) as (p0 & p1 & -> & Hsum)
  end.
  exists p0, p1. eexists. eexists.
  split; [reflexivity |]. split; [exact Hsum |]. split; [reflexivity |].
  cbn [max_of fold_left].
  assert (Hmax : Py.max p0 p1 == Qmax p0 p1) by apply max_Qmax.
  split; [exact Hmax |].
  destruct (Q.max_spec p0 p1) as [[Hlt Hm] | [Hle Hm]];
    rewrite Hmax, Hm;
    destruct (map_risk_category_cases p1) as [[B ->] | [[B ->] | [B ->]]];
    repeat split; intros; try discriminate; try lra.
Qed.

Lemma predict_confidence_witness :
  exists p0 p1 category confidence,
    predict Fixtures.approving_model Fixtures.good_customer
    = inr (p1, category, confidence)
    /\ p0 + p1 == 1
    /\ category = _map_risk_category p1
    /\ confidence == Qmax p0 p1
    /\ 0.5 <= confidence
    /\ (category = "Low" -> confidence == p1 /\ 0.7 < confidence)
    /\ (category = "High" -> confidence == p0 /\ 0.7 < confidence)
    /\ (category = "Medium" -> confidence <= 0.7).
Proof.
  apply (proj2 (predict_confidence (fun _ => inr [0.2; 0.8])
                  Fixtures.good_customer)).
  intros features. exists 0.2, 0.8. split; reflexivity.
Defined.

(** X19. The validators of [CustomerData] let through exactly the data
    whose income and loan amount are not at most 0, whose debts are not
    below 0, whose age is between 18 and 100 and whose two categories are
    listed ones; a NaN, which no comparison rejects, passes as income, loan
    amount or debts.  For data that passes, the encodings [predict] feeds
    the classifier come from its two tables, never from the fall-back
    values. *)
Theorem validated_customer_encodes (v : CustomerData) :
  (validation_errors v = [] <->
   ~ at_most (income v) 0
   /\ (18 <= age v <= 100)%Z
   /\ ~ at_most (loan_amount v) 0
   /\ credit_history v ∈ ["Good"; "Fair"; "Poor"]
   /\ employment_type v
        ∈ ["Full-time"; "Part-time"; "Self-employed"; "Unemployed"]
   /\ ~ below (existing_debts v) 0)
  /\ (validation_errors v = [] ->
      (exists code, credit_history_map !! credit_history v = Some code
                    /\ (code == 0 \/ code == 1 \/ code == 2))
      /\ (exists code, employment_type_map !! employment_type v = Some code
                       /\ (code == 0 \/ code == 1 \/ code == 2
                           \/ code == 3))).
Proof.
  assert (Hiff : validation_errors v = [] <->
   ~ at_most (income v) 0
   /\ (18 <= age v <= 100)%Z
   /\ ~ at_most (loan_amount v) 0
   /\ credit_history v ∈ ["Good"; "Fair"; "Poor"]
   /\ employment_type v
        ∈ ["Full-time"; "Part-time"; "Self-employed"; "Unemployed"]
   /\ ~ below (existing_debts v) 0).
  { unfold validation_errors.
    rewrite <- fleb_not_at_most, <- fleb_not_at_most, <- fltb_not_below.
    destruct (fleb (income v) 0); [split; [discriminate | intros (? & _); congruence] |].
    destruct (fleb (loan_amount v) 0);
      [split; [intros H; apply (f_equal (@length string)) in H;
               rewrite !length_app in H; cbn in H; lia
              | intros (_ & _ & ? & _); congruence] |].
    destruct (fltb (existing_debts v) 0);
      [split; [intros H; apply (f_equal (@length string)) in H;
               rewrite !length_app in H; cbn in H; lia
              | intros (_ & _ & _ & _ & _ & ?); congruence] |].
    cbn [app]. rewrite !app_nil_r.
    destruct ((age v <? 18)%Z || (100 <? age v)%Z) eqn:Hage.
    { split; [discriminate |]. intros (_ & Ha & _).
      apply orb_true_iff in Hage as [Hage | Hage];
        apply Z.ltb_lt in Hage; lia. }
    apply orb_false_iff in Hage as [H18 H100].
    apply Z.ltb_ge in H18, H100. cbn [app].
    case_bool_decide as Hc; [split; [discriminate | tauto] |].
    case_bool_decide as He; [split; [discriminate | tauto] |].
    try apply dec_stable in Hc. try apply dec_stable in He.
    cbn [app]. tauto. }
  split; [exact Hiff |].
  intros H. apply Hiff in H as (_ & _ & _ & Hc & He & _).
  split;
    repeat match goal with
      | E : _ ∈ _ :: _ |- _ => apply elem_of_cons in E as [-> | E]
      | E : _ ∈ [] |- _ => apply elem_of_nil in E; destruct E
      end;
    eexists; (split; [vm_compute; reflexivity |]); vm_compute; tauto.
Qed.

Lemma validated_customer_encodes_witness :
  validation_errors Fixtures.nan_income_customer = []
  /\ exists code,
       credit_history_map !! credit_history Fixtures.nan_income_customer
       = Some code
       /\ (code == 0 \/ code == 1 \/ code == 2).
Proof.
  split; [vm_compute; reflexivity |].
  refine (proj1 (proj2 (validated_customer_encodes
                          Fixtures.nan_income_customer) _)).
  vm_compute. reflexivity.
Defined.

End Predictions.

(** ** Response checks *)

Section QualityScoreRange.
Import OpenRouterLLMService.

Lemma inr_eq_inv {E A : Type} (a b : A) : @inr E A a = inr b -> a = b.
Proof. intros H. now inversion H. Qed.

Lemma first_char_raises (s : string) :
  (exists e, first_char s = inl e) <-> s = "".
Proof.
  destruct s; cbn; split; intros H; try reflexivity;
    [eexists; reflexivity | destruct H as [e H]; discriminate | discriminate].
Qed.

Lemma last_char_raises (s : string) :
  (exists e, last_char s = inl e) <-> s = "".
Proof.
  split.
  - intros [e H]. induction s as [| c s IH]; [reflexivity |].
    cbn [last_char] in H. destruct s as [| c' s']; [discriminate |].
    specialize (IH H). discriminate.
  - intros ->. eexists. reflexivity.
Qed.

(** X20. [calculate_quality_score] returns exactly for the responses that
    are not empty once stripped, whatever the prompt, and every score it
    returns lies in [[0,1]]. *)
Theorem quality_score_returns_iff_not_blank (response prompt : string) :
  ((exists score, calculate_quality_score response prompt = inr score)
   <-> strip response <> "")
  /\ (forall score,
         calculate_quality_score response prompt = inr score ->
         0 <= score <= 1).
Proof.
  unfold calculate_quality_score. cbv zeta.
  destruct (first_char response) as [e0 | c0] eqn:H0.
  { assert (response = "") as -> by (apply first_char_raises; eauto).
    split; [| intros score H; discriminate H].
    split; [intros [score H]; discriminate H | intros H; now destruct H]. }
  destruct (last_char (strip response)) as [e1 | cl] eqn:H1.
  { assert (Hs : strip response = "") by (apply last_char_raises; eauto).
    split; [| intros score H; discriminate H].
    split; [intros [score H]; discriminate H | intros H; now destruct H]. }
  split.
  - split; [| intros _; eexists; reflexivity].
    intros _ Hs. rewrite Hs in H1. discriminate H1.
  - intros score H. apply inr_eq_inv in H. rewrite <- H. clear H.
    match goal with
    | |- context [Py.min 1.0 ?b] => generalize b
    end.
    intros b.
    destruct (clamp_bounds 0.0 1.0 b) as [Hlo Hhi]; [discriminate |].
    split; lra.
Qed.

(** X21. Brevity costs: a response of fewer than 50 characters never
    scores above 0.7, and one with fewer than two sentence marks in
    addition never above 0.5. *)
Theorem short_response_scores_low (response prompt : string) (score : Q) :
  calculate_quality_score response prompt = inr score ->
  (String.length response < 50)%nat ->
  score <= 0.7
  /\ ((count "." response + count "!" response + count "?" response < 2)%nat
      -> score <= 0.5).
Proof.
  unfold calculate_quality_score.
  intros H Hlen. apply Nat.ltb_lt in Hlen. rewrite Hlen in H.
  destruct (count "." response + count "!" response + count "?" response
            <? 2)%nat eqn:Hsent;
    (destruct (first_char response) as [e0 | c0]; [discriminate H |]);
    (destruct (last_char (strip response)) as [e1 | cl];
       [discriminate H |]);
    destruct (isupper c0);
    destruct (bool_decide (cl ∈ ["."; "!"; "?"]%char));
    cbn [negb] in H; cbv zeta in H;
    match type of H with
    | context [(0 <? ?n)%nat] => destruct (0 <? n)%nat
    end;
    repeat match type of H with
      | context [Py.ltb ?a ?b] => destruct (Py.ltb a b)
      end;
    match type of H with
    | context [(?n =? 0)%nat] => destruct (n =? 0)%nat
    end;
    apply inr_eq_inv in H; rewrite <- H; clear H;
    (split; [vm_compute; discriminate |]);
    intros Hs; apply Nat.ltb_lt in Hs;
    first [congruence | vm_compute; discriminate].
Qed.

Lemma quality_score_returns_iff_not_blank_witness :
  exists score,
    calculate_quality_score "Yes." "Is the branch open today?" = inr score.
Proof.
  refine (proj2 (proj1 (quality_score_returns_iff_not_blank "Yes."
                          "Is the branch open today?")) _).
  vm_compute. discriminate.
Defined.

Lemma short_response_scores_low_witness :
  exists score,
    calculate_quality_score "Yes." "Is the branch open today?" = inr score
    /\ score <= 0.7.
Proof.
  eexists. split.
  - vm_compute. reflexivity.
  - refine (proj1 (short_response_scores_low "Yes."
                     "Is the branch open today?" _ _ _)).
    + vm_compute. reflexivity.
    + cbn. lia.
Defined.

End QualityScoreRange.

Section SafetyChecks.
Import OpenRouterLLMService.

Lemma prefix_spec (a b : string) :
  String.prefix a b = true <-> exists post, b = a +:+ post.
Proof.
  revert b. induction a as [| c a IH]; intros b.
  - split; [intros _; now exists b | intros _; now destruct b].
  - destruct b as [| c' b]; cbn [String.prefix].
    + split; [discriminate | intros [post H]; discriminate H].
    + destruct (Ascii.ascii_dec c c') as [<- | Hne].
      * rewrite IH. split; intros [post H]; exists post.
        -- now rewrite H.
        -- now injection H.
      * split; [discriminate |].
        intros [post H]. injection H as H1 _. congruence.
Qed.

(** [contains] is the substring test. *)
Lemma contains_spec (sub s : string) :
  contains sub s = true <-> exists pre post, s = pre +:+ sub +:+ post.
Proof.
  induction s as [| c s IH].
  - cbn [contains]. rewrite orb_false_r, prefix_spec. split.
    + intros [post H]. now exists "", post.
    + intros (pre & post & H). destruct pre as [| c pre]; [| discriminate H].
      now exists post.
  - cbn [contains]. rewrite orb_true_iff, prefix_spec, IH. split.
    + intros [[post H] | (pre & post & H)].
      * now exists "", post.
      * exists (String c pre), post. now rewrite H.
    + intros (pre & post & H). destruct pre as [| c' pre].
      * left. now exists post.
      * right. exists pre, post. now injection H.
Qed.

(** X22. The report of [check_safety] hangs together: the check passes
    exactly when no violation is listed, which is when the severity is
    ["none"]; the severity is ["high"] from three violations on; at most
    the twelve keywords are listed, and a keyword is listed exactly when
    it occurs in the lower-cased text. *)
Theorem safety_report_consistent (text : string) :
  let r := check_safety text in
  (safety_passed r = true <-> violations r = [])
  /\ (severity r = "none" <-> violations r = [])
  /\ (severity r = "high" <-> (3 <= violation_count r)%nat)
  /\ violation_count r = length (violations r)
  /\ (violation_count r <= 12)%nat
  /\ (forall kw,
        In kw (violations r)
        <-> In kw unsafe_keywords
            /\ exists pre post, lower text = pre +:+ kw +:+ post).
Proof.
  intros r. subst r. unfold check_safety. cbv zeta.
  cbn [safety_passed violations severity violation_count].
  set (found := List.filter _ unsafe_keywords).
  assert (Hlen : (length found <= 12)%nat).
  { subst found. etransitivity; [apply List.filter_length_le |].
    reflexivity. }
  split; [| split; [| split; [| split; [reflexivity | split]]]].
  - rewrite Nat.eqb_eq. now destruct found.
  - destruct found as [| a [| b [| c rest]]]; cbn; split; intros H;
      first [reflexivity | discriminate H].
  - destruct found as [| a [| b [| c rest]]]; cbn; split; intros H;
      first [reflexivity | discriminate H | lia].
  - exact Hlen.
  - intros kw. subst found. rewrite List.filter_In, contains_spec.
    reflexivity.
Qed.

(** X23. In the report of [detect_hallucination] a detection always comes
    with an indicator, the confidence is 0.6 for a detection and 0.95
    otherwise, and indicators without a detection occur only under a
    disclaimer: without one, a hallucination is detected exactly when an
    indicator is found. *)
Theorem hallucination_report_consistent (prompt response : string) :
  let r := detect_hallucination prompt response in
  (hallucination_detected r = true -> indicators_found r <> [])
  /\ (confidence r = if hallucination_detected r then 0.6 else 0.95)
  /\ (hallucination_detected r = false -> indicators_found r <> [] ->
      has_disclaimer r = true)
  /\ (has_disclaimer r = false ->
      (hallucination_detected r = true <-> indicators_found r <> [])).
Proof.
  intros r. subst r. unfold detect_hallucination. cbv zeta.
  cbn [hallucination_detected confidence indicators_found has_disclaimer].
  set (detected := List.filter _ hallucination_indicators).
  set (risky := List.filter _ risky_claims).
  set (disclaimer := existsb _ disclaimer_words).
  destruct detected as [| d ds]; destruct risky as [| k ks];
    destruct disclaimer; cbn;
    repeat split; intros; try discriminate; try reflexivity;
    try congruence.
Qed.

Lemma hallucination_report_consistent_witness :
  indicators_found
    (detect_hallucination "Is it safe?" "This fund is a guaranteed profit.")
  <> [].
Proof.
  refine (proj1 (hallucination_report_consistent "Is it safe?"
                   "This fund is a guaranteed profit.") _).
  vm_compute. reflexivity.
Defined.

End SafetyChecks.
